(** * CursorShadowWorkspaceHandler: a shallow embedding of the shadow-workspace
    execution core (src/build/shadow/CursorShadowWorkspaceHandler.js, with
    src/src/shadow/CursorShadowWorkspaceHandler.ts for the parts it shares).

    Strings are Stdlib [string]s of ASCII characters; the filesystem is a list
    of entries keyed by absolute paths (lists of segments); the asynchronous
    code runs in an error/state monad that records a trace of the
    observable effects (directory creation, file writes, commands run, tree
    removals).  The process-level behaviour of Node's [child_process.exec]
    is a Section variable: an oracle that decides, for the k-th command run,
    how the process ended, what it printed and what it did to the disk.  A
    second oracle decides whether [fs.rm] of the workspace completes or
    fails part way (permissions and open files are not on the entries). *)

From Stdlib Require Import String Ascii List Bool Arith Lia.
Import ListNotations.
Open Scope string_scope.
Open Scope list_scope.

Infix "+++" := String.append (right associativity, at level 60).

(** ** Characters and strings *)

Definition dq : string := String "034"%char EmptyString.   (* double quote *)
Definition sq : string := String "039"%char EmptyString.   (* single quote *)
Definition nl : string := String "010"%char EmptyString.   (* line feed *)

Definition is_quote (c : ascii) : bool :=
  Ascii.eqb c "034"%char || Ascii.eqb c "039"%char.

(** [String.prototype.startsWith] *)
Fixpoint starts_with (s pre : string) : bool :=
  match pre, s with
  | EmptyString, _ => true
  | String c pre', String d s' => Ascii.eqb c d && starts_with s' pre'
  | String _ _, EmptyString => false
  end.

(** [String.prototype.includes] *)
Fixpoint includes (s sub : string) : bool :=
  starts_with s sub ||
  match s with
  | EmptyString => false
  | String _ s' => includes s' sub
  end.

(** [String.prototype.endsWith] *)
Definition ends_with (s suf : string) : bool :=
  Nat.leb (String.length suf) (String.length s) &&
  String.eqb (String.substring (String.length s - String.length suf)
                               (String.length suf) s) suf.

(** JavaScript's [trim], over the ASCII white-space characters
    (space, tab, line feed, vertical tab, form feed, carriage return). *)
Definition js_space (c : ascii) : bool :=
  let n := nat_of_ascii c in Nat.eqb n 32 || (Nat.leb 9 n && Nat.leb n 13).

Fixpoint drop_space (l : list ascii) : list ascii :=
  match l with
  | c :: l' => if js_space c then drop_space l' else l
  | [] => []
  end.

Definition trim (s : string) : string :=
  string_of_list_ascii
    (rev (drop_space (rev (drop_space (list_ascii_of_string s))))).

(** [toLowerCase] on ASCII letters. *)
Definition lower_ascii (c : ascii) : ascii :=
  let n := nat_of_ascii c in
  if Nat.leb 65 n && Nat.leb n 90 then ascii_of_nat (n + 32) else c.

Fixpoint to_lower (s : string) : string :=
  match s with
  | EmptyString => EmptyString
  | String c s' => String (lower_ascii c) (to_lower s')
  end.

(** Decimal rendering of a counter, as in the template literal
    [`workspace_${n}`]. *)
Fixpoint digits_rev (fuel n : nat) : string :=
  match fuel with
  | O => EmptyString
  | S f =>
      let d := String (ascii_of_nat (48 + n mod 10)) EmptyString in
      if Nat.ltb n 10 then d else digits_rev f (n / 10) +++ d
  end.

Definition string_of_nat (n : nat) : string := digits_rev (S n) n.

(** Splitting on ['/']. *)
Fixpoint split_slash_aux (cur : string) (s : string) : list string :=
  match s with
  | EmptyString => [cur]
  | String c s' =>
      if Ascii.eqb c "/"%char then cur :: split_slash_aux EmptyString s'
      else split_slash_aux (cur +++ String c EmptyString) s'
  end.

Definition split_slash (s : string) : list string := split_slash_aux EmptyString s.

(** ** Paths *)

(** An absolute path as its list of segments; [[]] is the root. *)
Definition path := list string.

Definition path_eqb (p q : path) : bool :=
  if list_eq_dec string_dec p q then true else false.

Fixpoint is_prefix_path (pre p : path) : bool :=
  match pre, p with
  | [], _ => true
  | a :: pre', b :: p' => String.eqb a b && is_prefix_path pre' p'
  | _ :: _, [] => false
  end.

(** [path.join(base, rel)] for an absolute, normalised [base]: the segments
    of [rel] are appended, empty and ["."] segments dropped, [".."] pops. *)
Definition norm_step (acc : path) (seg : string) : path :=
  if String.eqb seg EmptyString then acc
  else if String.eqb seg "." then acc
  else if String.eqb seg ".." then removelast acc
  else acc ++ [seg].

Definition path_join (base : path) (rel : string) : path :=
  fold_left norm_step (split_slash rel) base.

(** The string form of an absolute path. *)
Definition path_str (p : path) : string := "/" +++ String.concat "/" p.

(** [path.extname]: the part of the last non-empty segment from its last
    dot, unless that dot is the first character or there is none. *)
Fixpoint last_dot_aux (i : nat) (s : string) (acc : option nat) : option nat :=
  match s with
  | EmptyString => acc
  | String c s' =>
      last_dot_aux (S i) s' (if Ascii.eqb c "."%char then Some i else acc)
  end.

Definition extname (p : string) : string :=
  let base := last (filter (fun seg => negb (String.eqb seg EmptyString)) (split_slash p)) EmptyString in
  if String.eqb base ".." then EmptyString
  else match last_dot_aux 0 base None with
       | None | Some 0 => EmptyString
       | Some i => String.substring i (String.length base - i) base
       end.

(** ** The filesystem *)

Inductive node := File (content : string) | Dir.

(** Entries in listing order; directories are entries of their own. *)
Definition fsys := list (path * node).

Fixpoint lookup_entries (fs : fsys) (p : path) : option node :=
  match fs with
  | [] => None
  | (q, n) :: fs' => if path_eqb p q then Some n else lookup_entries fs' p
  end.

(** The root always exists as a directory. *)
Definition lookup_node (fs : fsys) (p : path) : option node :=
  match p with
  | [] => Some Dir
  | _ => lookup_entries fs p
  end.

(** [fs.access]: the path exists, as a file or a directory. *)
Definition path_exists (fs : fsys) (p : path) : bool :=
  match lookup_node fs p with Some _ => true | None => false end.

Definition is_dir (fs : fsys) (p : path) : bool :=
  match lookup_node fs p with Some Dir => true | _ => false end.

Definition set_node (fs : fsys) (p : path) (n : node) : fsys :=
  if path_exists fs p
  then map (fun e => if path_eqb (fst e) p then (p, n) else e) fs
  else fs ++ [(p, n)].

(** [fs.mkdir(p, { recursive: true })]: every missing ancestor and [p]
    itself become directories; a file in the way is an error. *)
Fixpoint mkdir_p_aux (fs : fsys) (done : path) (rest : list string) : option fsys :=
  match rest with
  | [] => Some fs
  | seg :: rest' =>
      let q := done ++ [seg] in
      match lookup_node fs q with
      | Some (File _) => None
      | Some Dir => mkdir_p_aux fs q rest'
      | None => mkdir_p_aux (fs ++ [(q, Dir)]) q rest'
      end
  end.

Definition mkdir_p (fs : fsys) (p : path) : option fsys := mkdir_p_aux fs [] p.

(** [fs.writeFile(p, c)]: the parent must be a directory and [p] must not
    be one. *)
Definition write_file (fs : fsys) (p : path) (c : string) : option fsys :=
  match p with
  | [] => None
  | _ =>
      if negb (is_dir fs (removelast p)) then None
      else if is_dir fs p then None
      else Some (set_node fs p (File c))
  end.

(** [fs.rm(p, { recursive: true, force: true })]: the whole tree under [p]
    goes; a missing [p] is not an error. *)
Definition rm_rf (fs : fsys) (p : path) : fsys :=
  filter (fun e => negb (is_prefix_path p (fst e))) fs.

(** A removal of [p] that stopped part way: of the entries under [p], only
    those listed in [kept] remain. *)
Definition rm_partial (fs : fsys) (p : path) (kept : list path) : fsys :=
  filter (fun e => negb (is_prefix_path p (fst e))
                   || existsb (path_eqb (fst e)) kept) fs.

(** The file contents at [p], as [fs.readFile] returns them. *)
Definition read_file (fs : fsys) (p : path) : option string :=
  match lookup_node fs p with Some (File c) => Some c | _ => None end.

(** ** JSON values, as [JSON.parse] returns them *)

Local Set Warnings "-register-all".

Inductive jval :=
| JNull
| JBool (b : bool)
| JNum (n : nat)
| JStr (s : string)
| JArr (l : list jval)
| JObj (kvs : list (string * jval)).

(** JavaScript truthiness of a possibly [undefined] ([None]) value. *)
Definition truthy (v : option jval) : bool :=
  match v with
  | None | Some JNull => false
  | Some (JBool b) => b
  | Some (JNum n) => negb (Nat.eqb n 0)
  | Some (JStr s) => negb (String.eqb s EmptyString)
  | Some (JArr _) | Some (JObj _) => true
  end.

Fixpoint assoc (k : string) (kvs : list (string * jval)) : option jval :=
  match kvs with
  | [] => None
  | (k', v) :: kvs' => if String.eqb k k' then Some v else assoc k kvs'
  end.

(** Property access [v.k]: [None] is the TypeError raised on [null],
    [Some None] is [undefined]. *)
Definition jget (v : jval) (k : string) : option (option jval) :=
  match v with
  | JNull => None
  | JObj kvs => Some (assoc k kvs)
  | _ => Some None
  end.

(** Optional chaining [v?.k]. *)
Definition jget_opt (v : option jval) (k : string) : option (option jval) :=
  match v with
  | None | Some JNull => Some None
  | Some w => jget w k
  end.

(** ** Processes, as [child_process.exec] reports them *)

(** How a spawned shell ended: an exit code, a signal, killed by the
    [timeout] option, or killed for exceeding [maxBuffer]. *)
Inductive proc_end :=
| Exited (code : nat)
| Signaled (signal : string)
| TimedOut
| MaxBufferExceeded.

Record exec_result := mkExecResult {
  ex_end : proc_end;
  ex_stdout : string;
  ex_stderr : string
}.

(** The [error] argument Node passes to the [exec] callback: none for a
    zero exit, otherwise an Error whose message Node builds as
    [`Command failed: ${cmd}\n${stderr}`] (a RangeError with its own
    message when the output buffer overflowed). *)
Definition exec_error_message (cmd : string) (r : exec_result) : option string :=
  match ex_end r with
  | Exited 0 => None
  | Exited _ | Signaled _ | TimedOut =>
      Some ("Command failed: " +++ cmd +++ nl +++ ex_stderr r)
  | MaxBufferExceeded => Some "stdout maxBuffer length exceeded"
  end.

(** ** The error/state monad *)

Inductive js_error := JsError (msg : string).

Inductive outcome (A : Type) := Ok (a : A) | Err (e : js_error).
Arguments Ok {A} a.
Arguments Err {A} e.

(** Observable effects, in the order they happen; a command carries the
    filesystem it started on and how it ended. *)
Inductive event :=
| EvMkdir (p : path)
| EvWrite (p : path) (content : string)
| EvExec (cmd : string) (before : fsys) (res : exec_result)
| EvRm (p : path)
| EvRmFailed (p : path) (msg : string).

Record state := mkState {
  st_fs : fsys;
  st_count : nat;     (* this.workspaceCount *)
  st_calls : nat;     (* commands spawned so far *)
  st_log : list event
}.

Definition M (A : Type) := state -> outcome A * state.

Definition ret {A} (a : A) : M A := fun s => (Ok a, s).

Definition bind {A B} (m : M A) (k : A -> M B) : M B :=
  fun s => match m s with
           | (Ok a, s1) => k a s1
           | (Err e, s1) => (Err e, s1)
           end.

Definition throw {A} (msg : string) : M A := fun s => (Err (JsError msg), s).

(** [try { m } catch (e) { h(e) }] *)
Definition catch_ {A} (m : M A) (h : js_error -> M A) : M A :=
  fun s => match m s with
           | (Ok a, s1) => (Ok a, s1)
           | (Err e, s1) => h e s1
           end.

(** [try { m } finally { f }]: an error of [f] replaces the result. *)
Definition finally_ {A} (m : M A) (f : M unit) : M A :=
  fun s => let (r, s1) := m s in
           match f s1 with
           | (Ok _, s2) => (r, s2)
           | (Err e, s2) => (Err e, s2)
           end.

Definition get_fs : M fsys := fun s => (Ok (st_fs s), s).

Notation "x <- m ;; k" := (bind m (fun x => k))
  (at level 61, m at next level, right associativity).
Notation "m ;;; k" := (bind m (fun _ => k))
  (at level 61, right associativity).

Fixpoint foldM {A B} (f : B -> A -> M B) (l : list A) (b : B) : M B :=
  match l with
  | [] => ret b
  | x :: l' => b' <- f b x ;; foldM f l' b'
  end.

(** A write of the filesystem through [write_file]. *)
Definition writeFile (p : path) (c : string) : M unit :=
  fun s => match write_file (st_fs s) p c with
           | Some fs' => (Ok tt, mkState fs' (st_count s) (st_calls s)
                                         (st_log s ++ [EvWrite p c]))
           | None => (Err (JsError "ENOENT or EISDIR"), s)
           end.

(** How a removal started after the k-th command ends: [None] when
    [fs.rm] completes, [Some (msg, kept)] when it rejects with [msg]
    (EACCES, EPERM, EBUSY, ...) after removing only part of the tree. What
    decides it (permissions, open files) is not recorded on the entries. *)
Definition rm_env := nat -> path -> fsys -> option (string * list path).

(** [fs.rm(p, { recursive: true, force: true })] *)
Definition rmTree (rm : rm_env) (p : path) : M unit :=
  fun s =>
    match rm (st_calls s) p (st_fs s) with
    | None => (Ok tt, mkState (rm_rf (st_fs s) p) (st_count s) (st_calls s)
                              (st_log s ++ [EvRm p]))
    | Some (msg, kept) =>
        (Err (JsError msg),
         mkState (rm_partial (st_fs s) p kept) (st_count s) (st_calls s)
                 (st_log s ++ [EvRmFailed p msg]))
    end.

Section Handler.

(** [this.workspaceBaseDir] *)
Variable workspaceBaseDir : path.

(** [JSON.parse]: [None] is a SyntaxError. *)
Variable json_parse : string -> option jval.

(** The k-th command spawned, started on a filesystem: how it ends and the
    filesystem it leaves behind. *)
Variable exec_oracle : nat -> string -> fsys -> exec_result * fsys.

(** Whether a removal of the workspace completes. *)
Variable rm_oracle : rm_env.

(** [executeCommand(command)]: the promise rejects with Node's error
    unless its message mentions [exit code 1]; otherwise it resolves with
    both output streams. *)
Definition settle (cmd : string) (r : exec_result) : outcome (string * string) :=
  match exec_error_message cmd r with
  | Some msg =>
      if includes msg "exit code 1" then Ok (ex_stdout r, ex_stderr r)
      else Err (JsError msg)
  | None => Ok (ex_stdout r, ex_stderr r)
  end.

Definition executeCommand (cmd : string) : M (string * string) :=
  fun s =>
    let (r, fs') := exec_oracle (st_calls s) cmd (st_fs s) in
    (settle cmd r,
     mkState fs' (st_count s) (S (st_calls s))
             (st_log s ++ [EvExec cmd (st_fs s) r])).

(** [`cd "${workspacePath}" && ${command}`] *)
Definition in_workspace (ws : path) (command : string) : string :=
  "cd " +++ dq +++ path_str ws +++ dq +++ " && " +++ command.

(** ** detectAndRunSetupCommands *)

(** [matchesPattern(filename, pattern)] *)
Definition matchesPattern (filename pattern : string) : bool :=
  if starts_with pattern "*."
  then ends_with filename (String.substring 1 (String.length pattern - 1) pattern)
  else String.eqb filename pattern.

(** The entries strictly below [dir]. *)
Definition descendants (fs : fsys) (dir : path) : fsys :=
  filter (fun e => is_prefix_path dir (fst e) && negb (path_eqb dir (fst e))) fs.

(** [findFiles(dir, pattern)]: the non-directories anywhere below [dir]
    whose name matches; reading a [dir] that is not a directory throws.
    The order of the list is the listing order (the caller only tests
    whether it is empty). *)
Definition findFiles (dir : path) (pattern : string) : M (list path) :=
  fun s =>
    if is_dir (st_fs s) dir then
      (Ok (map fst (filter (fun e =>
             match snd e with
             | Dir => false
             | File _ => matchesPattern (last (fst e) EmptyString) pattern
             end) (descendants (st_fs s) dir))), s)
    else (Err (JsError "ENOENT: no such file or directory, scandir"), s).

(** An entry of [setupIndicators]: the signature file, its install
    commands and, for package.json, the conventional sub-directories with
    their own install commands.  The [runCommands] fields are never run by
    the pass and are left out. *)
Record indicator := mkIndicator {
  ind_file : string;
  ind_commands : list string;
  ind_subDirs : list (string * list string)
}.

Definition subDirNames : list string := ["frontend"; "client"; "web"; "ui"].

Definition setupIndicators : list indicator := [
  mkIndicator "requirements.txt" ["pip install -r requirements.txt"] [];
  mkIndicator "Pipfile" ["pipenv install"] [];
  mkIndicator "package.json" ["npm install"]
    (map (fun dir => (dir, ["cd " +++ dir +++ " && npm install"])) subDirNames);
  mkIndicator "yarn.lock" ["yarn install"] [];
  mkIndicator "pnpm-lock.yaml" ["pnpm install"] [];
  mkIndicator "*.csproj" ["dotnet restore"] [];
  mkIndicator "pom.xml" ["mvn install"] [];
  mkIndicator "build.gradle" ["gradle build"] [];
  mkIndicator "Cargo.toml" ["cargo build"] [];
  mkIndicator "go.mod" ["go mod download"] []
].

(** [JSON.parse(await fs.readFile(p, 'utf-8'))], [None] on any error. *)
Definition read_json (fs : fsys) (p : path) : option jval :=
  match read_file fs p with Some c => json_parse c | None => None end.

(** [packageJson.scripts || {}]; [None] when [packageJson] is [null]. *)
Definition scripts_of (v : jval) : option jval :=
  match jget v "scripts" with
  | None => None
  | Some sc => Some (if truthy sc then match sc with Some w => w | None => JObj [] end
                     else JObj [])
  end.

Definition script_truthy (sc : jval) (k : string) : bool :=
  match jget sc k with Some v => truthy v | None => false end.

(** Run [command] in the workspace unless it is in [commandsRun]; it is
    added only once it succeeded, a failure is logged and swallowed. *)
Definition run_once (ws : path) (commandsRun : list string) (command : string)
  : M (list string) :=
  if existsb (String.eqb command) commandsRun then ret commandsRun
  else catch_ (executeCommand (in_workspace ws command) ;;; ret (command :: commandsRun))
              (fun _ => ret commandsRun).

(** One conventional sub-directory of the package.json entry. *)
Definition process_subdir (ws : path) (commandsRun : list string)
  (sd : string * list string) : M (list string) :=
  let (dir, commands) := sd in
  fs <- get_fs ;;
  if negb (path_exists fs (path_join ws dir)) then ret commandsRun else
  let scripts :=
    match read_json fs (path_join ws dir ++ ["package.json"]) with
    | Some v => match scripts_of v with Some sc => sc | None => JObj [] end
    | None => JObj []
    end in
  cr1 <- foldM (run_once ws) commands commandsRun ;;
  if script_truthy scripts "build" || script_truthy scripts "build:prod" then
    run_once ws cr1 ("cd " +++ dir +++ " && npm run " +++
                     (if script_truthy scripts "build:prod" then "build:prod" else "build"))
  else ret cr1.

(** The root package.json build script. *)
Definition root_build (ws : path) (commandsRun : list string) : M (list string) :=
  fs <- get_fs ;;
  match read_json fs (ws ++ ["package.json"]) with
  | None => ret commandsRun
  | Some v =>
      match scripts_of v with
      | None => ret commandsRun
      | Some sc =>
          if script_truthy sc "build" then run_once ws commandsRun "npm run build"
          else ret commandsRun
      end
  end.

Definition process_indicator (ws : path) (commandsRun : list string)
  (ind : indicator) : M (list string) :=
  files <- findFiles ws (ind_file ind) ;;
  match files with
  | [] => ret commandsRun
  | _ :: _ =>
      cr1 <- foldM (run_once ws) (ind_commands ind) commandsRun ;;
      cr2 <- foldM (process_subdir ws) (ind_subDirs ind) cr1 ;;
      if String.eqb (ind_file ind) "package.json" then root_build ws cr2
      else ret cr2
  end.

(** [detectAndRunSetupCommands(workspacePath)] *)
Definition detectAndRunSetupCommands (ws : path) : M unit :=
  foldM (process_indicator ws) setupIndicators [] ;;; ret tt.

(** ** detectEntryPoint *)

(** [frameworkConfigs]: (signature file, implied entry), in table order. *)
Definition frameworkConfigs : list (string * string) := [
  ("next.config.js", "pages/index");
  ("vite.config.js", "src/main");
  ("angular.json", "src/main.ts");
  ("cargo.toml", "src/main.rs");
  ("go.mod", "main.go");
  ("pom.xml", "src/main/java/Main.java");
  ("build.gradle", "src/main/java/Main.java");
  ("requirements.txt", "main.py");
  ("Pipfile", "main.py");
  ("pyproject.toml", "main.py")
].

(** [entryPointPatterns], in priority order. *)
Definition entryPointPatterns : list string := [
  "pages/_app.tsx"; "pages/_app.jsx"; "pages/index.tsx"; "pages/index.jsx";
  "src/pages/_app.tsx"; "src/pages/index.tsx"; "src/App.tsx"; "src/main.tsx";
  "src/main.jsx"; "src/app.vue"; "src/main.ts";
  "src/index.ts"; "src/index.js"; "src/main.ts"; "src/main.js"; "src/app.ts";
  "src/app.js"; "src/server.ts"; "src/server.js"; "index.ts"; "index.js";
  "main.ts"; "main.js"; "app.ts"; "app.js"; "server.ts"; "server.js";
  "src/__main__.py"; "src/main.py"; "src/app.py"; "__main__.py"; "main.py";
  "app.py"; "run.py"; "wsgi.py"; "asgi.py"; "manage.py";
  "src/main.rs"; "src/lib.rs"; "main.rs";
  "cmd/main.go"; "main.go"; "app.go";
  "src/main/java/Main.java"; "src/main/kotlin/Main.kt";
  "src/main/scala/Main.scala"; "Main.java"; "App.java";
  "Program.cs"; "Startup.cs"; "src/Program.cs"
].

(** The substrings the content scan looks for. *)
Definition entryMarkers : list string := [
  "function main"; "def main"; "public static void main"; "fn main";
  "func main"; "class Main"; "export default"; "module.exports";
  "createRoot"; "ReactDOM.render";
  "if __name__ == " +++ dq +++ "__main__" +++ dq;
  "@SpringBootApplication"
].

Fixpoint first_some {A B} (f : A -> option B) (l : list A) : option B :=
  match l with
  | [] => None
  | x :: l' => match f x with Some b => Some b | None => first_some f l' end
  end.

(** Tier 1: the first signature file present whose implied entry exists. *)
Definition tier_framework (fs : fsys) (ws : path) : option path :=
  first_some (fun cfg =>
    if path_exists fs (path_join ws (fst cfg)) then
      let entryPath := path_join ws (snd cfg) in
      if path_exists fs entryPath then Some entryPath else None
    else None) frameworkConfigs.

(** [s.match(re)?.[1]] for the regular expression of the source: a
    quote character, a non-empty run of non-quote characters (the group),
    a quote character; the leftmost match wins. *)
Fixpoint take_nonquote (s : string) : string * string :=
  match s with
  | EmptyString => (EmptyString, EmptyString)
  | String c s' =>
      if is_quote c then (EmptyString, s)
      else let (t, r) := take_nonquote s' in (String c t, r)
  end.

Fixpoint quoted_token (s : string) : option string :=
  match s with
  | EmptyString => None
  | String c s' =>
      if is_quote c then
        match take_nonquote s' with
        | (String _ _ as t, String _ _) => Some t
        | _ => quoted_token s'
        end
      else quoted_token s'
  end.

(** [x?.match(re)?.[1]]: [None] is the TypeError of a non-string [x]. *)
Definition match_token (x : option jval) : option (option jval) :=
  match x with
  | None | Some JNull => Some None
  | Some (JStr s) => Some (option_map JStr (quoted_token s))
  | Some _ => None
  end.

(** [possibleEntries], before [.filter(Boolean)]; [None] if building the
    array throws. *)
Definition manifest_candidates (v : jval) : option (list (option jval)) :=
  match jget v "main", jget v "module", jget v "source", jget v "browser",
        jget v "scripts" with
  | Some m, Some mo, Some so, Some br, Some sc =>
      match jget_opt sc "start", jget_opt sc "dev" with
      | Some st, Some dv =>
          match match_token st, match_token dv with
          | Some stm, Some dvm => Some [m; mo; so; br; stm; dvm]
          | _, _ => None
          end
      | _, _ => None
      end
  | _, _, _, _, _ => None
  end.

(** The loop over the truthy entries: a non-string one makes
    [path.join] throw, which ends the tier. *)
Fixpoint manifest_scan (fs : fsys) (ws : path) (es : list (option jval)) : option path :=
  match es with
  | [] => None
  | Some (JStr e) :: es' =>
      let mainFile := path_join ws e in
      if path_exists fs mainFile then Some mainFile else manifest_scan fs ws es'
  | _ :: _ => None
  end.

(** Tier 2: package.json fields and start/dev scripts; every error is
    caught and ends the tier. *)
Definition tier_manifest (fs : fsys) (ws : path) : option path :=
  let packageJsonPath := path_join ws "package.json" in
  if negb (path_exists fs packageJsonPath) then None else
  match read_json fs packageJsonPath with
  | None => None
  | Some v =>
      match manifest_candidates v with
      | None => None
      | Some es => manifest_scan fs ws (filter truthy es)
      end
  end.

(** Tier 3: the first conventional path that exists. *)
Definition tier_conventional (fs : fsys) (ws : path) : option path :=
  first_some (fun f => let filePath := path_join ws f in
                       if path_exists fs filePath then Some filePath else None)
             entryPointPatterns.

(** The relative name [fs.readdir(ws, { recursive: true })] gives an entry. *)
Definition rel_name (ws : path) (p : path) : string :=
  String.concat "/" (skipn (length ws) p).

(** Tier 4: every entry below the workspace in listing order, skipping
    names that start with a dot, returning the first file whose content
    contains a marker. *)
Definition tier_heuristic (fs : fsys) (ws : path) : option path :=
  if negb (is_dir fs ws) then None else
  first_some (fun e =>
    if starts_with (rel_name ws (fst e)) "." then None else
    match snd e with
    | Dir => None
    | File content =>
        if existsb (includes content) entryMarkers then Some (fst e) else None
    end) (descendants fs ws).

(** [detectEntryPoint(workspacePath)]: the tiers in order, first hit wins. *)
Definition detectEntryPoint (fs : fsys) (ws : path) : option path :=
  match tier_framework fs ws with
  | Some p => Some p
  | None =>
      match tier_manifest fs ws with
      | Some p => Some p
      | None =>
          match tier_conventional fs ws with
          | Some p => Some p
          | None => tier_heuristic fs ws
          end
      end
  end.

(** ** getRunCommand *)

Definition quoted (f : string) : string := dq +++ f +++ dq.

Definition run_commands (filePath : string) : list (string * string) :=
  let q := quoted filePath in
  let exe := quoted (filePath +++ ".exe") in
  [ (".js", "node " +++ q); (".ts", "ts-node " +++ q);
    (".mjs", "node " +++ q); (".cjs", "node " +++ q);
    (".jsx", "node -r @babel/register " +++ q);
    (".tsx", "ts-node --compiler-options '{" +++ quoted "jsx" +++ ":" +++
             quoted "react" +++ "}' " +++ q);
    (".py", "python " +++ q); (".py3", "python3 " +++ q);
    (".pyw", "pythonw " +++ q);
    (".sh", "bash " +++ q); (".bash", "bash " +++ q); (".zsh", "zsh " +++ q);
    (".bat", q); (".cmd", q);
    (".ps1", "powershell -NoProfile -NonInteractive -ExecutionPolicy Bypass -File " +++ q);
    (".rb", "ruby " +++ q); (".php", "php " +++ q); (".pl", "perl " +++ q);
    (".r", "Rscript " +++ q); (".go", "go run " +++ q); (".java", "java " +++ q);
    (".groovy", "groovy " +++ q); (".scala", "scala " +++ q);
    (".kt", "kotlin " +++ q); (".kts", "kotlin " +++ q);
    (".cpp", "g++ " +++ q +++ " -o " +++ exe +++ " && " +++ exe);
    (".cc", "g++ " +++ q +++ " -o " +++ exe +++ " && " +++ exe);
    (".c", "gcc " +++ q +++ " -o " +++ exe +++ " && " +++ exe);
    (".rs", "rustc " +++ q +++ " -o " +++ exe +++ " && " +++ exe);
    (".fish", "fish " +++ q); (".tcsh", "tcsh " +++ q); (".ksh", "ksh " +++ q) ].

Fixpoint assoc_str (k : string) (l : list (string * string)) : option string :=
  match l with
  | [] => None
  | (k', v) :: l' => if String.eqb k k' then Some v else assoc_str k l'
  end.

(** [getRunCommand(extension, filePath)]: [commands[extension] || null]. *)
Definition getRunCommand (extension filePath : string) : option string :=
  assoc_str extension (run_commands filePath).

(** ** setupNodeProject *)

Fixpoint indent (n : nat) : string :=
  match n with O => EmptyString | S n' => "  " +++ indent n' end.

(** [JSON.stringify(v, null, 2)] (strings written without escapes, which
    the constants below do not need). *)
Fixpoint stringify (lvl : nat) (v : jval) : string :=
  match v with
  | JNull => "null"
  | JBool true => "true"
  | JBool false => "false"
  | JNum n => string_of_nat n
  | JStr s => quoted s
  | JArr [] => "[]"
  | JArr l =>
      "[" +++ nl +++
      String.concat ("," +++ nl)
        (map (fun x => indent (S lvl) +++ stringify (S lvl) x) l) +++
      nl +++ indent lvl +++ "]"
  | JObj [] => "{}"
  | JObj kvs =>
      "{" +++ nl +++
      String.concat ("," +++ nl)
        (map (fun kv => indent (S lvl) +++ quoted (fst kv) +++ ": " +++
                        stringify (S lvl) (snd kv)) kvs) +++
      nl +++ indent lvl +++ "}"
  end.

Definition packageJsonTemplate : jval :=
  JObj [("name", JStr "shadow-workspace"); ("version", JStr "1.0.0");
        ("type", JStr "module");
        ("dependencies", JObj [
           ("@babel/core", JStr "^7.22.0"); ("@babel/preset-react", JStr "^7.22.0");
           ("@babel/preset-typescript", JStr "^7.22.0");
           ("@babel/register", JStr "^7.22.0"); ("@babel/preset-env", JStr "^7.22.0");
           ("ts-node", JStr "^10.9.1"); ("typescript", JStr "^5.0.0");
           ("react", JStr "^18.2.0"); ("react-dom", JStr "^18.2.0")])].

Definition babelConfigTemplate : jval :=
  JObj [("presets", JArr [JStr "@babel/preset-env"; JStr "@babel/preset-react";
                          JStr "@babel/preset-typescript"])].

(** [setupNodeProject(workspacePath, extension)] *)
Definition setupNodeProject (ws : path) (extension : string) : M unit :=
  writeFile (path_join ws "package.json") (stringify 0 packageJsonTemplate) ;;;
  writeFile (path_join ws ".babelrc") (stringify 0 babelConfigTemplate) ;;;
  executeCommand (in_workspace ws "npm install") ;;;
  ret tt.

(** ** runCode *)

Record dependency := mkDependency { dep_code : string; dep_filename : string }.

(** [ShadowWorkspaceOptions]; an absent field is [None]. *)
Record options := mkOptions {
  o_code : option string;
  o_filename : option string;
  o_filepath : option string;
  o_dependencies : option (list dependency);
  o_entryPoint : option string;
  o_autoSetup : option bool
}.

Definition truthy_str (o : option string) : bool :=
  match o with Some s => negb (String.eqb s EmptyString) | None => false end.

Record run_result := mkRunResult {
  r_output : string;
  r_error : string;
  r_success : bool;
  r_entryPoint : string
}.

(** [createWorkspaceDirectory()]: the counter is bumped, then
    [workspace_<n>] is created under the base directory (the id has no
    slash, so [path.join] appends it as one segment). *)
Definition createWorkspaceDirectory : M path :=
  fun s =>
    let n := S (st_count s) in
    let ws := workspaceBaseDir ++ ["workspace_" +++ string_of_nat n] in
    match mkdir_p (st_fs s) ws with
    | Some fs' => (Ok ws, mkState fs' n (st_calls s) (st_log s ++ [EvMkdir ws]))
    | None => (Err (JsError "EEXIST or ENOTDIR"), mkState (st_fs s) n (st_calls s) (st_log s))
    end.

(** [initializeWorkspaceDirectory()], started by the constructor: a
    recursive [mkdir] of the base directory whose error is only logged. *)
Definition initializeWorkspaceDirectory : M unit :=
  fun s =>
    match mkdir_p (st_fs s) workspaceBaseDir with
    | Some fs' => (Ok tt, mkState fs' (st_count s) (st_calls s)
                                  (st_log s ++ [EvMkdir workspaceBaseDir]))
    | None => (Ok tt, s)
    end.

(** [cleanup(workspaceId)]: the [catch] logs the error of [fs.rm] and
    rethrows it. *)
Definition cleanup (workspaceId : string) : M unit :=
  rmTree rm_oracle (workspaceBaseDir ++ [workspaceId]).

(** Dependency files first, in order. *)
Definition write_dependencies (ws : path) (deps : option (list dependency)) : M unit :=
  match deps with
  | Some ((_ :: _) as l) =>
      foldM (fun _ dep => writeFile (path_join ws (dep_filename dep)) (dep_code dep)) l tt
  | _ => ret tt
  end.

(** The main file, or the given path; [mainFilePath] as a string. *)
Definition write_main (ws : path) (o : options) : M string :=
  if truthy_str (o_code o) && truthy_str (o_filename o) then
    let mainFilePath := path_join ws (match o_filename o with Some f => f | None => EmptyString end) in
    writeFile mainFilePath (match o_code o with Some c => c | None => EmptyString end) ;;;
    ret (path_str mainFilePath)
  else if truthy_str (o_filepath o) then
    ret (match o_filepath o with Some f => f | None => EmptyString end)
  else throw "Either code and filename or filepath must be provided".

Definition autoSetup_enabled (o : options) : bool :=
  match o_autoSetup o with Some false => false | _ => true end.

(** [fileToRun]: the explicit entry point, else the detected one, else the
    main file. *)
Definition resolve_entry (ws : path) (o : options) (mainFilePath : string) : M string :=
  if truthy_str (o_entryPoint o) then
    ret (path_str (path_join ws (match o_entryPoint o with Some e => e | None => EmptyString end)))
  else
    fs <- get_fs ;;
    match detectEntryPoint fs ws with
    | Some p => ret (path_str p)
    | None => ret mainFilePath
    end.

Definition node_extensions : list string := [".jsx"; ".tsx"; ".ts"].

(** [const success = !stderr || stderr.trim().length === 0] *)
Definition classify (stderr : string) : bool :=
  String.eqb stderr EmptyString || Nat.eqb (String.length (trim stderr)) 0.

(** From the extension of [fileToRun] to the returned result. *)
Definition run_entry (ws : path) (fileToRun : string) : M run_result :=
  let extension := to_lower (extname fileToRun) in
  match getRunCommand extension fileToRun with
  | None => throw ("Unsupported file type: " +++ extension)
  | Some runCommand =>
      (if existsb (String.eqb extension) node_extensions
       then setupNodeProject ws extension else ret tt) ;;;
      out <- executeCommand runCommand ;;
      ret (mkRunResult (fst out) (snd out) (classify (snd out)) fileToRun)
  end.

(** The body of the [try] block once the workspace exists. *)
Definition runCode_body (ws : path) (o : options) : M run_result :=
  write_dependencies ws (o_dependencies o) ;;;
  mainFilePath <- write_main ws o ;;
  (if autoSetup_enabled o then detectAndRunSetupCommands ws else ret tt) ;;;
  fileToRun <- resolve_entry ws o mainFilePath ;;
  run_entry ws fileToRun.

(** [runCode(options)]: the [catch] only logs and rethrows; once the
    workspace was created, the [finally] block calls [cleanup] and logs and
    swallows its error. *)
Definition runCode (o : options) : M run_result :=
  ws <- createWorkspaceDirectory ;;
  finally_ (runCode_body ws o)
           (catch_ (cleanup (last ws EmptyString)) (fun _ => ret tt)).

(** ** getStartCommand *)

(** [startPatterns]: (file, command), in the order they are tried. *)
Definition startPatterns : list (string * string) := [
  ("manage.py", "python manage.py runserver");
  ("app.py", "flask run");
  ("main.go", "go run main.go");
  ("Cargo.toml", "cargo run");
  ("gradlew", "./gradlew bootRun");
  ("mvnw", "./mvnw spring-boot:run")
].

(** The [try] block on package.json: [None] when it falls through, also
    when reading, parsing or [packageJson.scripts] throws. *)
Definition package_start_command (fs : fsys) (workspacePath : path) : option string :=
  match read_json fs (path_join workspacePath "package.json") with
  | None => None
  | Some packageJson =>
      match scripts_of packageJson with
      | None => None
      | Some scripts =>
          if script_truthy scripts "dev" then Some "npm run dev"
          else if script_truthy scripts "start" then Some "npm start"
          else None
      end
  end.

(** [getStartCommand(workspacePath)]: it only reads the disk; [fs.access]
    succeeds on a file or a directory. *)
Definition getStartCommand (fs : fsys) (workspacePath : path) : option string :=
  match package_start_command fs workspacePath with
  | Some c => Some c
  | None =>
      first_some (fun pattern =>
        if path_exists fs (path_join workspacePath (fst pattern))
        then Some (snd pattern) else None) startPatterns
  end.

(** ** hasAnyFile *)

(** [hasAnyFile(dir, patterns)] *)
Fixpoint hasAnyFile (dir : path) (patterns : list string) : M bool :=
  match patterns with
  | [] => ret false
  | pattern :: patterns' =>
      files <- findFiles dir pattern ;;
      match files with
      | _ :: _ => ret true
      | [] => hasAnyFile dir patterns'
      end
  end.

(** ** runCode, as in src/src/shadow/CursorShadowWorkspaceHandler.ts

    The TypeScript source has the same helpers as the built file (they
    differ only in type annotations and layout), but its [runCode] has no
    [autoSetup] option and no setup pass. *)
Definition runCode_ts (o : options) : M run_result :=
  ws <- createWorkspaceDirectory ;;
  finally_ (write_dependencies ws (o_dependencies o) ;;;
            mainFilePath <- write_main ws o ;;
            fileToRun <- resolve_entry ws o mainFilePath ;;
            run_entry ws fileToRun)
           (catch_ (cleanup (last ws EmptyString)) (fun _ => ret tt)).

End Handler.

(** * Vocabulary of the properties *)

(** Ordered sub-lists. *)
Inductive sublist {A} : list A -> list A -> Prop :=
| sl_nil : sublist [] []
| sl_skip x l1 l2 : sublist l1 l2 -> sublist l1 (x :: l2)
| sl_keep x l1 l2 : sublist l1 l2 -> sublist (x :: l1) (x :: l2).

(** The commands recorded in a trace, in order. *)
Definition execs (l : list event) : list string :=
  flat_map (fun e => match e with EvExec c _ _ => [c] | _ => [] end) l.

(** [m] only appends to the trace, and the commands it appends are, in
    order, a sub-list of [U]. *)
Definition runs_within {A} (m : M A) (U : list string) : Prop :=
  forall s, exists l, st_log (snd (m s)) = st_log s ++ l /\ sublist (execs l) U.

(** Every command string the setup pass can consider for one indicator,
    in the order it considers them: its install commands, then for each
    conventional sub-directory its install commands and both build
    variants, then the root build script of package.json. *)
Definition subdir_universe (sd : string * list string) : list string :=
  snd sd ++ ["cd " +++ fst sd +++ " && npm run build:prod";
             "cd " +++ fst sd +++ " && npm run build"].

Definition ind_universe (ind : indicator) : list string :=
  ind_commands ind ++ flat_map subdir_universe (ind_subDirs ind) ++
  (if String.eqb (ind_file ind) "package.json" then ["npm run build"] else []).

Definition setup_universe : list string := flat_map ind_universe setupIndicators.

(** A segment [path.join] appends as it is. *)
Definition seg_normal (seg : string) : bool :=
  negb (String.eqb seg EmptyString) && negb (String.eqb seg ".") &&
  negb (String.eqb seg "..").

Fixpoint nodupb (l : list string) : bool :=
  match l with
  | [] => true
  | x :: l' => negb (existsb (String.eqb x) l') && nodupb l'
  end.

(** [p] is a regular file of [fs]. *)
Definition is_file (fs : fsys) (p : path) : bool :=
  match lookup_node fs p with Some (File _) => true | _ => false end.

(** [P] holds of the filesystem the first command of the trace [l]
    started on (trivially when [l] runs no command). *)
Fixpoint before_first_exec (P : fsys -> bool) (l : list event) : bool :=
  match l with
  | [] => true
  | EvExec _ fs0 _ :: _ => P fs0
  | _ :: l' => before_first_exec P l'
  end.

(** [m] only appends to the trace; started on a filesystem satisfying [P],
    the first command it runs still sees [P], and if it runs none, [P]
    holds when it ends. *)
Definition preserves {A} (P : fsys -> bool) (m : M A) : Prop :=
  forall s, exists l, st_log (snd (m s)) = st_log s ++ l /\
    (P (st_fs s) = true ->
     before_first_exec P l = true /\ (execs l = [] -> P (st_fs (snd (m s))) = true)).

(** The dependency files of a request, in order, and the write of one. *)
Definition deps_list (o : options) : list dependency :=
  match o_dependencies o with Some l => l | None => [] end.

Definition dep_write (ws : path) (d : dependency) : event :=
  EvWrite (path_join ws (dep_filename d)) (dep_code d).

(** [m] leaves [this.workspaceCount] alone. *)
Definition keeps_count {A} (m : M A) : Prop :=
  forall s, st_count (snd (m s)) = st_count s.

(** [m] only appends to the trace, and spawns at most [n] commands. *)
Definition spawns_at_most {A} (n : nat) (m : M A) : Prop :=
  forall s, exists l, st_log (snd (m s)) = st_log s ++ l /\ length (execs l) <= n.

(** A request with [autoSetup: false]. *)
Definition without_autoSetup (o : options) : options :=
  mkOptions (o_code o) (o_filename o) (o_filepath o) (o_dependencies o)
            (o_entryPoint o) (Some false).

(** Reading a decimal numeral back (the inverse of [string_of_nat]). *)
Fixpoint decimal_value (acc : nat) (s : string) : nat :=
  match s with
  | EmptyString => acc
  | String c s' => decimal_value (acc * 10 + (nat_of_ascii c - 48)) s'
  end.

(** ** Example inputs *)

(** A base directory [/tmp/shadow] that exists, and a fresh handler. *)
Definition demo_base : path := ["tmp"; "shadow"].

Definition demo_state : state :=
  mkState [(["tmp"], Dir); (["tmp"; "shadow"], Dir)] 0 0 [].

Definition demo_request (code filename : string) : options :=
  mkOptions (Some code) (Some filename) None None None None.

(** Every command ends the same way and leaves the filesystem alone. *)
Definition oracle_ending (e : proc_end) (out err : string)
  : nat -> string -> fsys -> exec_result * fsys :=
  fun _ _ fs => (mkExecResult e out err, fs).

Definition no_json : string -> option jval := fun _ => None.

(** What Python writes to stderr for an uncaught exception. *)
Definition traceback : string :=
  "Traceback (most recent call last):" +++ nl +++
  "  File " +++ dq +++ "/tmp/shadow/workspace_1/a.py" +++ dq +++ ", line 1, in <module>" +++ nl +++
  "ValueError: boom" +++ nl.

(** Every removal completes. *)
Definition rm_ok : rm_env := fun _ _ _ => None.




(** A workspace [/w] holding only [main.py]. *)
Definition main_py_only : fsys := [(["w"], Dir); (["w"; "main.py"], File "print(1)")].

(** A Go workspace whose package.json start script names [server.js]. *)
Definition go_and_node : fsys :=
  [(["w"], Dir); (["w"; "go.mod"], File "module m");
   (["w"; "main.go"], File "package main"); (["w"; "package.json"], File "{}");
   (["w"; "server.js"], File "listen()")].

Definition start_server_json : string -> option jval :=
  fun _ => Some (JObj [("scripts", JObj [("start", JStr ("node " +++ sq +++ "server.js" +++ sq))])]).

(** A Next.js workspace whose implied entry [pages/index] exists. *)
Definition next_app : fsys :=
  [(["w"], Dir); (["w"; "next.config.js"], File "module.exports = {}");
   (["w"; "pages"], Dir); (["w"; "pages"; "index"], File "export default 1")].

(** A base directory [/tmp/shadow] that cannot be made: [/tmp] is a file. *)
Definition blocked_state : state := mkState [(["tmp"], File "x")] 0 0 [].

(** A workspace whose only candidate start file is a directory [manage.py]. *)
Definition manage_dir : fsys := [(["w"], Dir); (["w"; "manage.py"], Dir)].

(** * Properties *)

(** ** Monad and list facts *)

Lemma bind_ok_inv {A B} (m : M A) (k : A -> M B) s b s' :
  bind m k s = (Ok b, s') -> exists a s1, m s = (Ok a, s1) /\ k a s1 = (Ok b, s').
Proof.
  unfold bind. destruct (m s) as [[a|e] s1]; intro H; [eauto | discriminate].
Qed.


Lemma last_workspace (base : path) (id : string) :
  last (base ++ [id]) EmptyString = id.
Proof. apply last_last. Qed.

(** ** Workspace lifecycle *)


Create HintDb sublist.
Create HintDb within.
#[local] Hint Constructors sublist : sublist.

Lemma sublist_nil_l {A} (l : list A) : sublist [] l.
Proof. induction l; auto with sublist. Qed.

Lemma sublist_refl {A} (l : list A) : sublist l l.
Proof. induction l; auto with sublist. Qed.

Lemma sublist_app {A} (a b c d : list A) :
  sublist a b -> sublist c d -> sublist (a ++ c) (b ++ d).
Proof. induction 1; simpl; auto with sublist. Qed.

Lemma sublist_trans {A} (a b c : list A) :
  sublist a b -> sublist b c -> sublist a c.
Proof.
  intros Hab Hbc. revert a Hab.
  induction Hbc; intros a Hab; auto with sublist.
  inversion Hab; subst; auto with sublist.
Qed.

Lemma sublist_In {A} (a b : list A) x : sublist a b -> In x a -> In x b.
Proof. induction 1; simpl; intuition. Qed.

Lemma NoDup_sublist {A} (a b : list A) : sublist a b -> NoDup b -> NoDup a.
Proof.
  induction 1; intro Hnd; auto.
  - inversion Hnd; auto.
  - inversion Hnd; subst. constructor; auto.
    intro Hin. apply (sublist_In _ _ _ H) in Hin. contradiction.
Qed.

#[local] Hint Resolve sublist_nil_l sublist_refl sublist_app : sublist.

(** ** Commands run *)

Lemma execs_app l1 l2 : execs (l1 ++ l2) = execs l1 ++ execs l2.
Proof. apply flat_map_app. Qed.

Lemma within_ret {A} (a : A) U : runs_within (ret a) U.
Proof. intro s. exists []. rewrite app_nil_r. auto with sublist. Qed.

Lemma within_weaken {A} (m : M A) U U' :
  runs_within m U -> sublist U U' -> runs_within m U'.
Proof.
  intros H Hs s. destruct (H s) as [l [Hl Hsub]].
  exists l. split; [exact Hl | eapply sublist_trans; eauto].
Qed.

Lemma within_bind {A B} (m : M A) (k : A -> M B) U1 U2 :
  runs_within m U1 -> (forall a, runs_within (k a) U2) ->
  runs_within (bind m k) (U1 ++ U2).
Proof.
  intros Hm Hk s. unfold bind.
  destruct (Hm s) as [l1 [Hl1 Hs1]].
  destruct (m s) as [[a|e] s1] eqn:E; simpl in Hl1.
  - destruct (Hk a s1) as [l2 [Hl2 Hs2]].
    exists (l1 ++ l2). rewrite Hl2, Hl1, app_assoc. split; [reflexivity|].
    rewrite execs_app. auto with sublist.
  - exists l1. split; [exact Hl1|].
    rewrite <- (app_nil_r (execs l1)). auto with sublist.
Qed.

Lemma within_catch {A} (m : M A) (h : js_error -> M A) U1 U2 :
  runs_within m U1 -> (forall e, runs_within (h e) U2) ->
  runs_within (catch_ m h) (U1 ++ U2).
Proof.
  intros Hm Hh s. unfold catch_.
  destruct (Hm s) as [l1 [Hl1 Hs1]].
  destruct (m s) as [[a|e] s1] eqn:E; simpl in Hl1.
  - exists l1. split; [exact Hl1|].
    rewrite <- (app_nil_r (execs l1)). auto with sublist.
  - destruct (Hh e s1) as [l2 [Hl2 Hs2]].
    exists (l1 ++ l2). rewrite Hl2, Hl1, app_assoc. split; [reflexivity|].
    rewrite execs_app. auto with sublist.
Qed.

Lemma within_get_fs U : runs_within get_fs U.
Proof. intro s. exists []. rewrite app_nil_r. auto with sublist. Qed.

Lemma within_findFiles dir pat U : runs_within (findFiles dir pat) U.
Proof.
  intro s. exists []. rewrite app_nil_r. unfold findFiles.
  destruct (is_dir (st_fs s) dir); simpl; auto with sublist.
Qed.

Lemma within_executeCommand oracle c : runs_within (executeCommand oracle c) [c].
Proof.
  intro s. unfold executeCommand.
  destruct (oracle (st_calls s) c (st_fs s)) as [r fs'].
  exists [EvExec c (st_fs s) r]. simpl. auto with sublist.
Qed.

Lemma within_foldM {A B} (f : B -> A -> M B) (g : A -> list string) :
  (forall b x, runs_within (f b x) (g x)) ->
  forall l b, runs_within (foldM f l b) (flat_map g l).
Proof.
  intros Hf l. induction l as [|x l IH]; intro b; simpl.
  - apply within_ret.
  - apply within_bind; auto.
Qed.

Lemma within_if {A} (c : bool) (m1 m2 : M A) U :
  runs_within m1 U -> runs_within m2 U -> runs_within (if c then m1 else m2) U.
Proof. destruct c; auto. Qed.

#[local] Hint Resolve within_ret within_get_fs within_findFiles
  within_executeCommand : within.

Lemma flat_map_single {A B} (f : A -> B) (l : list A) :
  flat_map (fun x => [f x]) l = map f l.
Proof. induction l; simpl; congruence. Qed.

Lemma map_flat_map {A B C} (f : B -> C) (g : A -> list B) (l : list A) :
  map f (flat_map g l) = flat_map (fun x => map f (g x)) l.
Proof. induction l; simpl; [reflexivity|]. rewrite map_app. congruence. Qed.

Lemma run_once_within oracle ws cr c :
  runs_within (run_once oracle ws cr c) [in_workspace ws c].
Proof.
  unfold run_once. destruct (existsb _ cr).
  - apply within_ret.
  - apply (within_weaken _ (([in_workspace ws c] ++ []) ++ [])).
    + apply within_catch; [apply within_bind|]; intros;
        auto using within_ret, within_executeCommand.
    + simpl. auto with sublist.
Qed.

Lemma run_once_fold_within oracle ws cmds cr :
  runs_within (foldM (run_once oracle ws) cmds cr) (map (in_workspace ws) cmds).
Proof.
  rewrite <- flat_map_single. apply within_foldM. intros. apply run_once_within.
Qed.

Lemma process_subdir_within parse oracle ws cr sd :
  runs_within (process_subdir parse oracle ws cr sd)
              (map (in_workspace ws) (subdir_universe sd)).
Proof.
  destruct sd as [dir cmds]. unfold process_subdir, subdir_universe.
  change (map (in_workspace ws) (snd (dir, cmds) ++ _))
    with ([] ++ map (in_workspace ws) (cmds ++
      ["cd " +++ dir +++ " && npm run build:prod"; "cd " +++ dir +++ " && npm run build"])).
  apply within_bind; [apply within_get_fs|]. intro fs.
  apply within_if; [apply within_ret|].
  rewrite map_app. apply within_bind; [apply run_once_fold_within|]. intro cr1.
  apply within_if; [|apply within_ret].
  eapply within_weaken; [apply run_once_within|].
  destruct (script_truthy _ "build:prod"); simpl; auto with sublist.
Qed.

Lemma root_build_within parse oracle ws cr :
  runs_within (root_build parse oracle ws cr) [in_workspace ws "npm run build"].
Proof.
  unfold root_build. change [in_workspace ws "npm run build"]
    with ([] ++ [in_workspace ws "npm run build"]).
  apply within_bind; [apply within_get_fs|]. intro fs.
  destruct (read_json parse fs _) as [v|]; [|apply within_ret].
  destruct (scripts_of v) as [sc|]; [|apply within_ret].
  apply within_if; [apply run_once_within | apply within_ret].
Qed.

Lemma process_indicator_within parse oracle ws cr ind :
  runs_within (process_indicator parse oracle ws cr ind)
              (map (in_workspace ws) (ind_universe ind)).
Proof.
  unfold process_indicator, ind_universe.
  change (map (in_workspace ws) ?u) with ([] ++ map (in_workspace ws) u).
  apply within_bind; [apply within_findFiles|]. intros [|f files];
    [apply within_ret|].
  rewrite !map_app. apply within_bind; [apply run_once_fold_within|]. intro cr1.
  apply within_bind.
  - rewrite map_flat_map. apply within_foldM. intros. apply process_subdir_within.
  - intro cr2. destruct (String.eqb (ind_file ind) "package.json").
    + apply root_build_within.
    + apply within_ret.
Qed.

Lemma detectAndRunSetupCommands_within parse oracle ws :
  runs_within (detectAndRunSetupCommands parse oracle ws)
              (map (in_workspace ws) setup_universe).
Proof.
  unfold detectAndRunSetupCommands, setup_universe.
  rewrite <- (app_nil_r (map _ _)).
  apply within_bind; [|intros; apply within_ret].
  rewrite map_flat_map. apply within_foldM. intros. apply process_indicator_within.
Qed.

Lemma nodupb_NoDup l : nodupb l = true -> NoDup l.
Proof.
  induction l as [|x l IH]; simpl; intro H; constructor.
  - apply andb_true_iff in H as [H _]. apply negb_true_iff in H.
    intro Hin. assert (existsb (String.eqb x) l = true) as E.
    { apply existsb_exists. exists x. split; [exact Hin | apply String.eqb_refl]. }
    congruence.
  - apply andb_true_iff in H as [_ H]. auto.
Qed.

Lemma append_inj_l (p a b : string) : p +++ a = p +++ b -> a = b.
Proof. induction p; simpl; [auto | intro H; injection H; auto]. Qed.

Lemma in_workspace_inj ws a b : in_workspace ws a = in_workspace ws b -> a = b.
Proof. unfold in_workspace. intro H. repeat apply append_inj_l in H. exact H. Qed.

Lemma NoDup_map_injective {A B} (f : A -> B) l :
  (forall x y, f x = f y -> x = y) -> NoDup l -> NoDup (map f l).
Proof.
  intros Hf Hnd. induction Hnd as [|x l Hx Hnd IH]; simpl; constructor; auto.
  intro Hin. apply in_map_iff in Hin as [y [Hy Hin]].
  apply Hf in Hy. subst. contradiction.
Qed.

Lemma setup_universe_NoDup : NoDup setup_universe.
Proof. apply nodupb_NoDup. vm_compute. reflexivity. Qed.

(** C8: in one pass of [detectAndRunSetupCommands], no command string is
    run twice: the commands the pass appends to the trace have no
    duplicates, whatever the workspace holds, whatever the package.json
    files say and however each command ends.  (The [commandsRun] set only
    records commands that succeeded; the pass still never repeats one
    because, in the order the pass reaches them, the candidate commands of
    the signature table, of the sub-directories and of the build scripts
    are pairwise distinct.) *)
Theorem setup_pass_runs_each_command_once :
  forall parse oracle ws s,
  exists l,
    st_log (snd (detectAndRunSetupCommands parse oracle ws s)) = st_log s ++ l /\
    NoDup (execs l).
Proof.
  intros parse oracle ws s.
  destruct (detectAndRunSetupCommands_within parse oracle ws s) as [l [Hl Hsub]].
  exists l. split; [exact Hl|].
  eapply NoDup_sublist; [exact Hsub|].
  apply NoDup_map_injective; [apply in_workspace_inj | apply setup_universe_NoDup].
Qed.

(** ** Paths and lookups below a workspace *)

Lemma path_join_normal ws rel :
  forallb seg_normal (split_slash rel) = true -> path_join ws rel = ws ++ split_slash rel.
Proof.
  unfold path_join. generalize (split_slash rel) as segs. intro segs.
  revert ws. induction segs as [|seg segs IH]; intros ws H; simpl.
  - now rewrite app_nil_r.
  - simpl in H. apply andb_true_iff in H as [Hs Hrest].
    unfold seg_normal in Hs. apply andb_true_iff in Hs as [Hs H3].
    apply andb_true_iff in Hs as [H1 H2]. apply negb_true_iff in H1, H2, H3.
    unfold norm_step. rewrite H1, H2, H3. rewrite IH by exact Hrest.
    now rewrite <- app_assoc.
Qed.

Lemma is_prefix_path_app ws x : is_prefix_path ws (ws ++ x) = true.
Proof. induction ws; simpl; auto. now rewrite String.eqb_refl. Qed.

Lemma path_eqb_true p q : path_eqb p q = true <-> p = q.
Proof. unfold path_eqb. destruct (list_eq_dec string_dec p q); split; congruence. Qed.

Lemma path_eqb_app ws a b : path_eqb (ws ++ a) (ws ++ b) = path_eqb a b.
Proof.
  unfold path_eqb.
  destruct (list_eq_dec string_dec (ws ++ a) (ws ++ b)) as [E|E];
  destruct (list_eq_dec string_dec a b) as [F|F]; auto.
  - apply app_inv_head in E. contradiction.
  - subst. contradiction.
Qed.

Lemma is_prefix_path_true pre p :
  is_prefix_path pre p = true -> exists x, p = pre ++ x.
Proof.
  revert p. induction pre as [|a pre IH]; intros [|b p] H; simpl in *.
  - exists []. reflexivity.
  - exists (b :: p). reflexivity.
  - discriminate.
  - apply andb_true_iff in H as [H1 H2]. apply String.eqb_eq in H1. subst.
    destruct (IH p H2) as [x ->]. exists x. reflexivity.
Qed.

Lemma lookup_entries_below fs ws segs :
  segs <> [] ->
  lookup_entries fs (ws ++ segs) = lookup_entries (descendants fs ws) (ws ++ segs).
Proof.
  intro Hne. induction fs as [|[q n] fs IH]; simpl; [reflexivity|].
  unfold descendants. simpl.
  destruct (path_eqb (ws ++ segs) q) eqn:E.
  - apply path_eqb_true in E. subst q.
    rewrite is_prefix_path_app.
    assert (path_eqb ws (ws ++ segs) = false) as F.
    { destruct (path_eqb ws (ws ++ segs)) eqn:G; [|reflexivity].
      apply path_eqb_true in G.
      rewrite <- (app_nil_r ws) in G at 1. apply app_inv_head in G.
      now subst. }
    rewrite F. simpl. rewrite (proj2 (path_eqb_true _ _) eq_refl). reflexivity.
  - destruct (is_prefix_path ws q && negb (path_eqb ws q)); simpl;
      [rewrite E|]; exact IH.
Qed.

(** In a workspace whose only entry is [main.py], a path below it exists
    exactly when it is that file. *)
Lemma exists_only_main_py fs ws c segs :
  descendants fs ws = [(ws ++ ["main.py"], File c)] -> segs <> [] ->
  path_exists fs (ws ++ segs) = path_eqb segs ["main.py"].
Proof.
  intros Hd Hne. unfold path_exists, lookup_node.
  destruct (ws ++ segs) eqn:E.
  { destruct segs; [contradiction|]. apply (f_equal (@length string)) in E.
    rewrite length_app in E. simpl in E. lia. }
  rewrite <- E, lookup_entries_below, Hd by exact Hne. simpl.
  rewrite path_eqb_app. destruct (path_eqb segs ["main.py"]); reflexivity.
Qed.

(** ** Entry-point detection *)

(** C4: [detectEntryPoint] tries its tiers in the order framework table,
    package.json, conventional paths, content scan, and the first hit is
    the answer; in a workspace whose only entry is [main.py] (whatever its
    content) the framework and package.json tiers miss and the
    conventional-path tier answers [main.py], before the content scan is
    reached. *)
Theorem detectEntryPoint_tier_order :
  forall parse fs ws,
  (forall p, tier_framework fs ws = Some p -> detectEntryPoint parse fs ws = Some p) /\
  (tier_framework fs ws = None ->
   forall p, tier_manifest parse fs ws = Some p -> detectEntryPoint parse fs ws = Some p) /\
  (tier_framework fs ws = None -> tier_manifest parse fs ws = None ->
   forall p, tier_conventional fs ws = Some p -> detectEntryPoint parse fs ws = Some p) /\
  (tier_framework fs ws = None -> tier_manifest parse fs ws = None ->
   tier_conventional fs ws = None -> detectEntryPoint parse fs ws = tier_heuristic fs ws) /\
  (forall c, descendants fs ws = [(ws ++ ["main.py"], File c)] ->
   tier_framework fs ws = None /\ tier_manifest parse fs ws = None /\
   tier_conventional fs ws = Some (ws ++ ["main.py"]) /\
   detectEntryPoint parse fs ws = Some (ws ++ ["main.py"])).
Proof.
  intros parse fs ws. unfold detectEntryPoint.
  split; [intros p H; now rewrite H|].
  split; [intros H1 p H; now rewrite H1, H|].
  split; [intros H1 H2 p H; now rewrite H1, H2, H|].
  split; [intros H1 H2 H3; now rewrite H1, H2, H3|].
  intros c Hd.
  assert (Hex : forall segs, segs <> [] ->
                path_exists fs (ws ++ segs) = path_eqb segs ["main.py"])
    by (intros; eapply exists_only_main_py; eauto).
  assert (Hf : tier_framework fs ws = None).
  { unfold tier_framework, frameworkConfigs. cbn [first_some fst snd].
    rewrite !path_join_normal by reflexivity.
    rewrite !Hex by (cbn; discriminate). cbn. reflexivity. }
  assert (Hm : tier_manifest parse fs ws = None).
  { unfold tier_manifest. rewrite !path_join_normal by reflexivity.
    rewrite Hex by (cbn; discriminate). cbn. reflexivity. }
  assert (Hc : tier_conventional fs ws = Some (ws ++ ["main.py"])).
  { unfold tier_conventional, entryPointPatterns. cbn [first_some].
    rewrite !path_join_normal by reflexivity.
    rewrite !Hex by (cbn; discriminate). cbn. reflexivity. }
  rewrite Hf, Hm, Hc. auto.
Qed.

Lemma first_some_first {A B} (f : A -> option B) l i x b :
  nth_error l i = Some x -> f x = Some b ->
  exists j y b', j <= i /\ nth_error l j = Some y /\ f y = Some b' /\
    first_some f l = Some b' /\
    (forall k z, k < j -> nth_error l k = Some z -> f z = None).
Proof.
  revert i. induction l as [|a l IH]; intros i Hi Hx; [destruct i; discriminate|].
  simpl. destruct (f a) as [b0|] eqn:Ea.
  - exists 0, a, b0. repeat split; auto; [lia|]. intros k z Hk. lia.
  - destruct i as [|i]; simpl in Hi.
    + injection Hi as ->. congruence.
    + destruct (IH i Hi Hx) as [j [y [b' [Hj [Hy [Hfy [Hfirst Hbefore]]]]]]].
      exists (S j), y, b'. repeat split; auto; [lia|].
      intros [|k] z Hk Hz; simpl in Hz.
      * injection Hz as <-. exact Ea.
      * apply (Hbefore k); auto. lia.
Qed.

(** C5: when some pair of the framework table has both its signature file
    and its implied entry in the workspace, [detectEntryPoint] answers the
    entry of the first such pair in table order, whatever package.json
    declares (its start script may name another existing file). *)
Theorem framework_entry_wins :
  forall parse fs ws i f e,
  nth_error frameworkConfigs i = Some (f, e) ->
  path_exists fs (path_join ws f) = true ->
  path_exists fs (path_join ws e) = true ->
  exists j f' e',
    j <= i /\ nth_error frameworkConfigs j = Some (f', e') /\
    path_exists fs (path_join ws f') = true /\
    path_exists fs (path_join ws e') = true /\
    (forall k f'' e'', k < j -> nth_error frameworkConfigs k = Some (f'', e'') ->
       path_exists fs (path_join ws f'') = false \/
       path_exists fs (path_join ws e'') = false) /\
    detectEntryPoint parse fs ws = Some (path_join ws e').
Proof.
  intros parse fs ws i f e Hi Hf He.
  set (g := fun cfg : string * string =>
    if path_exists fs (path_join ws (fst cfg)) then
      let entryPath := path_join ws (snd cfg) in
      if path_exists fs entryPath then Some entryPath else None
    else None).
  assert (Hg : g (f, e) = Some (path_join ws e)) by (unfold g; simpl; now rewrite Hf, He).
  destruct (first_some_first g _ _ _ _ Hi Hg)
    as [j [[f' e'] [b' [Hj [Hy [Hgy [Hfirst Hbefore]]]]]]].
  unfold g in Hgy; simpl in Hgy.
  destruct (path_exists fs (path_join ws f')) eqn:E1; [|discriminate].
  destruct (path_exists fs (path_join ws e')) eqn:E2; [|discriminate].
  injection Hgy as <-.
  exists j, f', e'. repeat split; auto.
  - intros k f'' e'' Hk Hz. specialize (Hbefore k (f'', e'') Hk Hz).
    unfold g in Hbefore; simpl in Hbefore.
    destruct (path_exists fs (path_join ws f'')); [|now left].
    destruct (path_exists fs (path_join ws e'')); [discriminate|now right].
  - unfold detectEntryPoint, tier_framework. fold g. now rewrite Hfirst.
Qed.

(** C9: the content scan skips only the names, relative to the
    workspace, that start with a dot; a hidden file inside a non-hidden
    directory is scanned and returned.  Workspace [/w] holding only
    [src/.hidden.js] with a [function main] declaration resolves to that
    hidden file. *)
Theorem heuristic_scan_returns_nested_hidden_file :
  detectEntryPoint (fun _ => None)
    [(["w"], Dir); (["w"; "src"], Dir);
     (["w"; "src"; ".hidden.js"], File "function main() {}")] ["w"]
  = Some ["w"; "src"; ".hidden.js"].
Proof. vm_compute. reflexivity. Qed.

(** ** Results of runCode *)

(** C2 (a defect of the code): a request whose entry file fails gets no
    result object.  The run command [python "/tmp/shadow/workspace_1/a.py"]
    exits with code 1 and writes a traceback; Node's error message is
    [Command failed: <cmd>] followed by that stderr, which does not contain
    [exit code 1], so [executeCommand] rejects and [runCode] rethrows
    instead of returning an unsuccessful result with both streams.  A run
    command that times out raises the same way: there is no timeout
    result. *)
Theorem runCode_failed_run_raises :
  fst (runCode demo_base no_json (oracle_ending (Exited 1) EmptyString traceback) rm_ok
               (demo_request "raise ValueError('boom')" "a.py") demo_state) =
  Err (JsError ("Command failed: python " +++ dq +++ "/tmp/shadow/workspace_1/a.py" +++
                dq +++ nl +++ traceback)) /\
  fst (runCode demo_base no_json (oracle_ending TimedOut EmptyString EmptyString) rm_ok
               (demo_request "while True: pass" "a.py") demo_state) =
  Err (JsError ("Command failed: python " +++ dq +++ "/tmp/shadow/workspace_1/a.py" +++
                dq +++ nl)).
Proof. split; vm_compute; reflexivity. Qed.

(** C3 (a defect of the code): a run command that exits with code 1 and
    an empty stderr, whatever it wrote to stdout, gets no unsuccessful
    result: [runCode] raises Node's error and the stdout is lost. *)
Theorem runCode_exit_1_gives_no_result :
  forall out,
  fst (runCode demo_base no_json (oracle_ending (Exited 1) out EmptyString) rm_ok
               (demo_request "import sys; sys.exit(1)" "a.py") demo_state) =
  Err (JsError ("Command failed: python " +++ dq +++ "/tmp/shadow/workspace_1/a.py" +++
                dq +++ nl)).
Proof. intro out. vm_compute. reflexivity. Qed.

(** ** Requests without code *)

Lemma bind_Ok {A B} (m : M A) (k : A -> M B) s a s1 :
  m s = (Ok a, s1) -> bind m k s = k a s1.
Proof. unfold bind. now intros ->. Qed.

Lemma bind_Err {A B} (m : M A) (k : A -> M B) s e s1 :
  m s = (Err e, s1) -> bind m k s = (Err e, s1).
Proof. unfold bind. now intros ->. Qed.

Lemma within_nil {A} (m : M A) : runs_within m [] ->
  forall s, exists l, st_log (snd (m s)) = st_log s ++ l /\ execs l = [].
Proof.
  intros H s. destruct (H s) as [l [Hl Hs]]. exists l. split; [exact Hl|].
  inversion Hs; reflexivity.
Qed.

Lemma within_writeFile p c U : runs_within (writeFile p c) U.
Proof.
  intro s. unfold writeFile. destruct (write_file (st_fs s) p c); simpl.
  - exists [EvWrite p c]. simpl. auto with sublist.
  - exists []. rewrite app_nil_r. auto with sublist.
Qed.

Lemma write_dependencies_within ws deps U :
  runs_within (write_dependencies ws deps) U.
Proof.
  unfold write_dependencies. destruct deps as [[|d ds]|]; try apply within_ret.
  apply (within_weaken _ (flat_map (fun _ => []) (d :: ds))).
  - apply (within_foldM _ (fun _ => [])). intros. apply within_writeFile.
  - replace (flat_map (fun _ : dependency => @nil string) (d :: ds)) with (@nil string);
      [auto with sublist|].
    generalize (d :: ds) as l. induction l; simpl; auto.
Qed.

Lemma last_workspace_id base s :
  last (base ++ ["workspace_" +++ string_of_nat (S (st_count s))]) EmptyString =
  "workspace_" +++ string_of_nat (S (st_count s)).
Proof. apply last_last. Qed.

Lemma write_main_invalid ws o s :
  truthy_str (o_code o) && truthy_str (o_filename o) = false ->
  truthy_str (o_filepath o) = false ->
  write_main ws o s =
  (Err (JsError "Either code and filename or filepath must be provided"), s).
Proof. intros H1 H2. unfold write_main. now rewrite H1, H2. Qed.

Lemma deps_fold_spec ws l : forall s,
  let (r, s2) := foldM (fun _ dep => writeFile (path_join ws (dep_filename dep)) (dep_code dep))
                       l tt s in
  exists k, st_log s2 = st_log s ++ map (dep_write ws) (firstn k l) /\
    ((k = length l /\ r = Ok tt) \/
     (k < length l /\ r = Err (JsError "ENOENT or EISDIR"))).
Proof.
  induction l as [|d l IH]; intro s; simpl.
  - exists 0. simpl. rewrite app_nil_r. auto.
  - unfold bind at 1, writeFile at 1.
    destruct (write_file (st_fs s) (path_join ws (dep_filename d)) (dep_code d)) as [fs'|].
    + match goal with |- context [foldM _ l tt ?s1] =>
        specialize (IH s1); destruct (foldM _ l tt s1) as [r s2] end.
      destruct IH as [k [Hl Hc]]. exists (S k). simpl. rewrite Hl. simpl.
      rewrite <- app_assoc. split; [reflexivity|].
      destruct Hc as [[-> ->]|[Hk ->]]; [left|right]; split; auto; lia.
    + exists 0. simpl. rewrite app_nil_r. split; [reflexivity|]. right. split; [lia|reflexivity].
Qed.

Lemma write_dependencies_spec ws o s :
  let (r, s2) := write_dependencies ws (o_dependencies o) s in
  exists k, st_log s2 = st_log s ++ map (dep_write ws) (firstn k (deps_list o)) /\
    ((k = length (deps_list o) /\ r = Ok tt) \/
     (k < length (deps_list o) /\ r = Err (JsError "ENOENT or EISDIR"))).
Proof.
  unfold write_dependencies, deps_list.
  destruct (o_dependencies o) as [[|d ds]|]; [| apply deps_fold_spec |];
    exists 0; simpl; rewrite app_nil_r; auto.
Qed.

(** C6 (as the code does it): a request with neither a truthy [code] and
    [filename] nor a truthy [filepath] makes [runCode] raise, and no command
    runs.  If the workspace cannot be made, the call raises the [mkdir]
    error and has no effect.  Otherwise the workspace is made, the
    dependency files are written in order until a write fails, and the
    removal of the workspace is attempted; nothing else happens in
    between.  The error is the validation error when every dependency file
    was written, else the error of the failed write.  A request carrying
    both forms is valid: the inline form is used and [filepath] is
    ignored. *)
Theorem runCode_rejects_request_without_code_or_path :
  (forall base parse oracle rm o s,
   truthy_str (o_code o) && truthy_str (o_filename o) = false ->
   truthy_str (o_filepath o) = false ->
   let ws := base ++ ["workspace_" +++ string_of_nat (S (st_count s))] in
   let (r, s') := runCode base parse oracle rm o s in
   (mkdir_p (st_fs s) ws = None /\ r = Err (JsError "EEXIST or ENOTDIR") /\
    st_log s' = st_log s /\ st_fs s' = st_fs s)
   \/
   (mkdir_p (st_fs s) ws <> None /\
    exists k last_ev,
      st_log s' = st_log s ++ EvMkdir ws :: map (dep_write ws) (firstn k (deps_list o)) ++ [last_ev] /\
      (last_ev = EvRm ws \/ exists m, last_ev = EvRmFailed ws m) /\
      ((k = length (deps_list o) /\
        r = Err (JsError "Either code and filename or filepath must be provided")) \/
       (k < length (deps_list o) /\ r = Err (JsError "ENOENT or EISDIR"))))) /\
  (forall base parse oracle rm o fp,
   truthy_str (o_code o) && truthy_str (o_filename o) = true ->
   runCode base parse oracle rm o =
   runCode base parse oracle rm
     (mkOptions (o_code o) (o_filename o) fp (o_dependencies o)
                (o_entryPoint o) (o_autoSetup o))).
Proof.
  split.
  - intros base parse oracle rm o s H1 H2 ws.
    unfold runCode, bind at 1, createWorkspaceDirectory. cbv zeta. fold ws.
    destruct (mkdir_p (st_fs s) ws) as [fs1|] eqn:Emk; cbv beta iota;
      [|left; repeat split; reflexivity].
    set (s1 := mkState fs1 (S (st_count s)) (st_calls s) (st_log s ++ [EvMkdir ws])).
    assert (Hb : exists k s2,
               st_log s2 = st_log s1 ++ map (dep_write ws) (firstn k (deps_list o)) /\
               ((k = length (deps_list o) /\
                 runCode_body parse oracle ws o s1 =
                 (Err (JsError "Either code and filename or filepath must be provided"), s2)) \/
                (k < length (deps_list o) /\
                 runCode_body parse oracle ws o s1 = (Err (JsError "ENOENT or EISDIR"), s2)))).
    { unfold runCode_body.
      pose proof (write_dependencies_spec ws o s1) as Hw.
      destruct (write_dependencies ws (o_dependencies o) s1) as [r s2] eqn:Ed.
      destruct Hw as [k [Hl [[Hk ->]|[Hk ->]]]]; exists k, s2; split; auto.
      - left. split; [exact Hk|].
        rewrite (bind_Ok _ _ _ _ _ Ed).
        exact (bind_Err _ _ _ _ _ (write_main_invalid ws o s2 H1 H2)).
      - right. split; [exact Hk|]. exact (bind_Err _ _ _ _ _ Ed). }
    destruct Hb as [k [s2 [Hl Hc]]].
    assert (Hid : last ws EmptyString = "workspace_" +++ string_of_nat (S (st_count s)))
      by apply last_workspace.
    assert (Hfin : forall e, runCode_body parse oracle ws o s1 = (Err e, s2) ->
              let (r, s') := finally_ (runCode_body parse oracle ws o)
                               (catch_ (cleanup base rm (last ws EmptyString)) (fun _ => ret tt)) s1 in
              r = Err e /\ exists last_ev, st_log s' = st_log s2 ++ [last_ev] /\
                (last_ev = EvRm ws \/ exists m, last_ev = EvRmFailed ws m)).
    { intros e Eb. unfold finally_. rewrite Eb.
      unfold catch_, cleanup, rmTree. rewrite Hid. fold ws.
      destruct (rm (st_calls s2) ws (st_fs s2)) as [[m kept]|]; cbv beta iota;
        (split; [reflexivity|]); eexists; (split; [reflexivity|]); eauto. }
    destruct Hc as [[Hk Eb]|[Hk Eb]]; specialize (Hfin _ Eb);
      destruct (finally_ _ _ s1) as [r s'];
      destruct Hfin as [-> [last_ev [Hs' Hev]]];
      right; (split; [discriminate|]); exists k, last_ev;
      (split; [rewrite Hs', Hl; unfold s1; simpl; now rewrite <- !app_assoc|]);
      split; auto.
  - intros base parse oracle rm o fp H. unfold runCode, runCode_body, write_main.
    simpl. rewrite H. reflexivity.
Qed.

(** ** The main file before the first command *)

Lemma lookup_entries_map fs q n p :
  lookup_entries (map (fun e => if path_eqb (fst e) q then (q, n) else e) fs) p =
  if path_eqb p q then
    match lookup_entries fs q with Some _ => Some n | None => None end
  else lookup_entries fs p.
Proof.
  induction fs as [|[r m] fs IH]; simpl.
  - now destruct (path_eqb p q).
  - destruct (path_eqb r q) eqn:Erq; simpl; rewrite IH;
      unfold path_eqb in *; repeat destruct list_eq_dec; subst; congruence.
Qed.

Lemma lookup_entries_snoc fs q n p :
  lookup_entries (fs ++ [(q, n)]) p =
  match lookup_entries fs p with
  | Some m => Some m
  | None => if path_eqb p q then Some n else None
  end.
Proof.
  induction fs as [|[r m] fs IH]; simpl; [reflexivity|].
  destruct (path_eqb p r); auto.
Qed.

Lemma lookup_set_node fs q n p :
  q <> [] ->
  lookup_node (set_node fs q n) p =
  if path_eqb p q then Some n else lookup_node fs p.
Proof.
  intro Hq. destruct p as [|a p].
  - simpl. unfold path_eqb. destruct list_eq_dec; congruence.
  - unfold lookup_node at 1 2. unfold set_node, path_exists, lookup_node.
    destruct q as [|b q]; [contradiction|].
    destruct (lookup_entries fs (b :: q)) as [m|] eqn:Ex.
    + rewrite lookup_entries_map, Ex. now destruct (path_eqb _ _).
    + rewrite lookup_entries_snoc.
      destruct (path_eqb (a :: p) (b :: q)) eqn:E.
      * apply path_eqb_true in E. injection E as -> ->. now rewrite Ex.
      * now destruct (lookup_entries fs (a :: p)).
Qed.

Lemma write_file_lookup fs q c fs' p :
  write_file fs q c = Some fs' ->
  lookup_node fs' p = if path_eqb p q then Some (File c) else lookup_node fs p.
Proof.
  unfold write_file. destruct q as [|b q]; [discriminate|].
  destruct (negb _); [discriminate|]. destruct (is_dir _ _); [discriminate|].
  intro H. injection H as <-. now apply lookup_set_node.
Qed.

Lemma write_file_is_file fs q c fs' p :
  write_file fs q c = Some fs' -> is_file fs p = true -> is_file fs' p = true.
Proof.
  intros Hw Hp. unfold is_file. rewrite (write_file_lookup _ _ _ _ _ Hw).
  destruct (path_eqb p q); auto.
Qed.

Lemma write_file_is_file_self fs q c fs' :
  write_file fs q c = Some fs' -> is_file fs' q = true.
Proof.
  intro Hw. unfold is_file. rewrite (write_file_lookup _ _ _ _ _ Hw).
  unfold path_eqb. now destruct list_eq_dec.
Qed.

Lemma before_first_exec_app P l1 l2 :
  before_first_exec P l1 = true ->
  (execs l1 = [] -> before_first_exec P l2 = true) ->
  before_first_exec P (l1 ++ l2) = true.
Proof.
  induction l1 as [|e l1 IH]; simpl; intros H1 H2; [now apply H2|].
  destruct e; simpl in *; auto.
Qed.

Lemma pres_ret {A} P (a : A) : preserves P (ret a).
Proof. intro s. exists []. rewrite app_nil_r. simpl. auto. Qed.

Lemma pres_throw {A} P msg : preserves P (@throw A msg).
Proof. intro s. exists []. rewrite app_nil_r. simpl. auto. Qed.

Lemma pres_get_fs P : preserves P get_fs.
Proof. intro s. exists []. rewrite app_nil_r. simpl. auto. Qed.

Lemma pres_findFiles P dir pat : preserves P (findFiles dir pat).
Proof.
  intro s. exists []. rewrite app_nil_r. unfold findFiles.
  destruct (is_dir (st_fs s) dir); simpl; auto.
Qed.

Lemma pres_executeCommand P oracle c : preserves P (executeCommand oracle c).
Proof.
  intro s. unfold executeCommand.
  destruct (oracle (st_calls s) c (st_fs s)) as [r fs'].
  exists [EvExec c (st_fs s) r]. simpl. split; [reflexivity|].
  intro H. split; [exact H | discriminate].
Qed.

Lemma pres_writeFile p q c : preserves (fun fs => is_file fs p) (writeFile q c).
Proof.
  intro s. unfold writeFile. destruct (write_file (st_fs s) q c) as [fs'|] eqn:E; simpl.
  - exists [EvWrite q c]. split; [reflexivity|].
    intro H. split; [reflexivity|]. intros _. eapply write_file_is_file; eauto.
  - exists []. rewrite app_nil_r. auto.
Qed.

Lemma pres_bind {A B} P (m : M A) (k : A -> M B) :
  preserves P m -> (forall a, preserves P (k a)) -> preserves P (bind m k).
Proof.
  intros Hm Hk s. unfold bind.
  destruct (Hm s) as [l1 [Hl1 H1]].
  destruct (m s) as [[a|e] s1]; simpl in Hl1, H1.
  - destruct (Hk a s1) as [l2 [Hl2 H2]].
    exists (l1 ++ l2). rewrite Hl2, Hl1, app_assoc. split; [reflexivity|].
    intro HP. destruct (H1 HP) as [B1 E1]. split.
    + apply before_first_exec_app; auto. intro X. apply H2; auto.
    + rewrite execs_app. intro X. apply app_eq_nil in X as [X1 X2].
      apply H2; auto.
  - exists l1. auto.
Qed.

Lemma pres_catch {A} P (m : M A) (h : js_error -> M A) :
  preserves P m -> (forall e, preserves P (h e)) -> preserves P (catch_ m h).
Proof.
  intros Hm Hh s. unfold catch_.
  destruct (Hm s) as [l1 [Hl1 H1]].
  destruct (m s) as [[a|e] s1]; simpl in Hl1, H1.
  - exists l1. auto.
  - destruct (Hh e s1) as [l2 [Hl2 H2]].
    exists (l1 ++ l2). rewrite Hl2, Hl1, app_assoc. split; [reflexivity|].
    intro HP. destruct (H1 HP) as [B1 E1]. split.
    + apply before_first_exec_app; auto. intro X. apply H2; auto.
    + rewrite execs_app. intro X. apply app_eq_nil in X as [X1 X2].
      apply H2; auto.
Qed.

Lemma pres_foldM {A B} P (f : B -> A -> M B) :
  (forall b x, preserves P (f b x)) -> forall l b, preserves P (foldM f l b).
Proof.
  intros Hf l. induction l as [|x l IH]; intro b; simpl.
  - apply pres_ret.
  - apply pres_bind; auto.
Qed.

Ltac pres_tac :=
  repeat match goal with
  | |- preserves _ (bind _ _) => apply pres_bind; [|intro]
  | |- preserves _ (catch_ _ _) => apply pres_catch; [|intro]
  | |- preserves _ (foldM _ _ _) => apply pres_foldM; intros
  | |- preserves _ (if ?c then _ else _) => destruct c
  | |- preserves _ (ret _) => apply pres_ret
  | |- preserves _ (throw _) => apply pres_throw
  | |- preserves _ get_fs => apply pres_get_fs
  | |- preserves _ (findFiles _ _) => apply pres_findFiles
  | |- preserves _ (executeCommand _ _) => apply pres_executeCommand
  | |- preserves _ (writeFile _ _) => apply pres_writeFile
  end.

Lemma run_once_pres P oracle ws cr c : preserves P (run_once oracle ws cr c).
Proof. unfold run_once. pres_tac. Qed.

Lemma process_subdir_pres P parse oracle ws cr sd :
  preserves P (process_subdir parse oracle ws cr sd).
Proof.
  destruct sd as [dir cmds]. unfold process_subdir. pres_tac; apply run_once_pres.
Qed.

Lemma root_build_pres P parse oracle ws cr : preserves P (root_build parse oracle ws cr).
Proof.
  unfold root_build. pres_tac.
  destruct (read_json parse _ _) as [v|]; [|apply pres_ret].
  destruct (scripts_of v) as [sc|]; [|apply pres_ret].
  pres_tac. apply run_once_pres.
Qed.

Lemma detectAndRunSetupCommands_pres P parse oracle ws :
  preserves P (detectAndRunSetupCommands parse oracle ws).
Proof.
  unfold detectAndRunSetupCommands. pres_tac.
  unfold process_indicator. pres_tac;
    auto using run_once_pres, process_subdir_pres, root_build_pres.
Qed.

Lemma resolve_entry_pres P parse ws o mp : preserves P (resolve_entry parse ws o mp).
Proof.
  unfold resolve_entry. pres_tac.
  destruct (detectEntryPoint _ _ _); apply pres_ret.
Qed.

Lemma run_entry_pres p oracle ws f :
  preserves (fun fs => is_file fs p) (run_entry oracle ws f).
Proof.
  unfold run_entry.
  destruct (getRunCommand _ f); pres_tac. unfold setupNodeProject. pres_tac.
Qed.

Lemma foldM_writes ws l : forall s b u s2,
  foldM (fun _ dep => writeFile (path_join ws (dep_filename dep)) (dep_code dep)) l b s
    = (Ok u, s2) ->
  st_log s2 = st_log s ++ map (dep_write ws) l.
Proof.
  induction l as [|d l IH]; simpl; intros s b u s2 H.
  - injection H as _ <-. now rewrite app_nil_r.
  - unfold bind, writeFile in H.
    destruct (write_file (st_fs s) _ _); [|discriminate].
    apply IH in H. simpl in H. rewrite H, <- app_assoc. reflexivity.
Qed.

Lemma write_dependencies_ok ws o s u s2 :
  write_dependencies ws (o_dependencies o) s = (Ok u, s2) ->
  st_log s2 = st_log s ++ map (dep_write ws) (deps_list o).
Proof.
  unfold write_dependencies, deps_list.
  destruct (o_dependencies o) as [[|d ds]|]; simpl;
    try (intro H; injection H as _ <-; now rewrite app_nil_r).
  intro H. exact (foldM_writes ws (d :: ds) s tt u s2 H).
Qed.

Lemma write_main_inline_run ws o s code filename :
  o_code o = Some code -> o_filename o = Some filename ->
  String.eqb code EmptyString = false -> String.eqb filename EmptyString = false ->
  write_main ws o s =
  match write_file (st_fs s) (path_join ws filename) code with
  | Some fs' =>
      (Ok (path_str (path_join ws filename)),
       mkState fs' (st_count s) (st_calls s)
               (st_log s ++ [EvWrite (path_join ws filename) code]))
  | None => (Err (JsError "ENOENT or EISDIR"), s)
  end.
Proof.
  intros Hc Hf Ec Ef. unfold write_main, truthy_str. rewrite Hc, Hf, Ec, Ef. simpl.
  unfold bind, writeFile. now destruct (write_file _ _ _).
Qed.

(** C7 (as the code does it): for a request with non-empty [code] and
    [filename], if [runCode] runs any command at all, its effects begin with
    the creation of the workspace [ws], then the writes of every dependency
    file in the given order, then the write of the main file at
    [path.join(ws, filename)]; that path is a regular file of the filesystem
    on which the first command (setup or run) starts.  It lies inside [ws]
    when [filename] has no empty, [.] or [..] segment ([../a.py] lands next
    to the workspace, outside it). *)
Theorem runCode_writes_dependencies_then_main :
  forall base parse oracle rm o s code filename,
  o_code o = Some code -> o_filename o = Some filename ->
  String.eqb code EmptyString = false -> String.eqb filename EmptyString = false ->
  exists l, st_log (snd (runCode base parse oracle rm o s)) = st_log s ++ l /\
   (execs l <> [] ->
    exists ws rest,
      ws = base ++ ["workspace_" +++ string_of_nat (S (st_count s))] /\
      l = EvMkdir ws :: map (dep_write ws) (deps_list o) ++
          EvWrite (path_join ws filename) code :: rest /\
      before_first_exec (fun fs => is_file fs (path_join ws filename)) rest = true /\
      (forallb seg_normal (split_slash filename) = true ->
       path_join ws filename = ws ++ split_slash filename)).
Proof.
  intros base parse oracle rm o s code filename Hc Hf Ec Ef.
  destruct (runCode base parse oracle rm o s) as [out s'] eqn:E. simpl.
  unfold runCode, bind, createWorkspaceDirectory in E.
  destruct (mkdir_p (st_fs s) _) as [fs1|] eqn:Emk;
    [|injection E as _ <-; exists []; simpl; rewrite app_nil_r;
      split; [reflexivity | intro X; contradiction X; reflexivity]].
  set (ws := base ++ ["workspace_" +++ string_of_nat (S (st_count s))]) in E.
  set (s1 := mkState fs1 (S (st_count s)) (st_calls s) (st_log s ++ [EvMkdir ws])) in E.
  unfold finally_ in E.
  destruct (runCode_body parse oracle ws o s1) as [r2 s2] eqn:Eb.
  assert (Hev : exists ev, st_log s' = st_log s2 ++ [ev] /\ execs [ev] = [] /\
                           forall P, before_first_exec P [ev] = true).
  { unfold catch_, cleanup, rmTree in E.
    destruct (rm _ _ _) as [[m kept]|]; injection E as _ <-;
      eexists; (split; [reflexivity|]); split; reflexivity. }
  clear E. destruct Hev as [ev [Hs' [Hev Hbf]]]. rewrite Hs'.
  set (mp := path_join ws filename).
  set (P := fun fs => is_file fs mp).
  unfold runCode_body in Eb.
  destruct (within_nil _ (write_dependencies_within ws (o_dependencies o) []) s1)
    as [ld [Hld Hxd]].
  destruct (write_dependencies ws (o_dependencies o) s1) as [[u|e] s1a] eqn:Ed;
    simpl in Hld.
  - rewrite (bind_Ok _ _ _ _ _ Ed) in Eb.
    pose proof (write_dependencies_ok _ _ _ _ _ Ed) as Hdl.
    pose proof (write_main_inline_run ws o s1a code filename Hc Hf Ec Ef) as Hwm.
    fold mp in Hwm.
    destruct (write_file (st_fs s1a) mp code) as [fs2|] eqn:Ew.
    + rewrite (bind_Ok _ _ _ _ _ Hwm) in Eb. cbv beta in Eb.
      match type of Eb with ?m _ = _ =>
        assert (Hp : preserves P m)
          by (pres_tac; first [apply detectAndRunSetupCommands_pres
                              | apply resolve_entry_pres | apply run_entry_pres]) end.
      set (s1b := mkState fs2 (st_count s1a) (st_calls s1a)
                          (st_log s1a ++ [EvWrite mp code])) in Eb.
      destruct (Hp s1b) as [lt [Hlt HP]]. rewrite Eb in Hlt, HP. simpl in Hlt, HP.
      assert (Hfile : P fs2 = true) by (eapply write_file_is_file_self; eauto).
      destruct (HP Hfile) as [Hb _].
      exists (EvMkdir ws :: map (dep_write ws) (deps_list o) ++
              EvWrite mp code :: lt ++ [ev]).
      split.
      * rewrite Hlt, Hdl. unfold s1. simpl. now rewrite <- !app_assoc.
      * intros _. exists ws, (lt ++ [ev]). repeat split.
        -- apply before_first_exec_app; auto.
        -- apply path_join_normal.
    + rewrite (bind_Err _ _ _ _ _ Hwm) in Eb. injection Eb as _ <-.
      exists (EvMkdir ws :: ld ++ [ev]). split.
      * rewrite Hld. unfold s1. simpl. now rewrite <- !app_assoc.
      * intro X. exfalso. apply X. simpl. rewrite execs_app, Hxd, Hev. reflexivity.
  - rewrite (bind_Err _ _ _ _ _ Ed) in Eb. injection Eb as _ <-.
    exists (EvMkdir ws :: ld ++ [ev]). split.
    + rewrite Hld. unfold s1. simpl. now rewrite <- !app_assoc.
    + intro X. exfalso. apply X. simpl. rewrite execs_app, Hxd, Hev. reflexivity.
Qed.

(** ** The Node project set-up *)

Lemma package_json_babelrc_distinct ws :
  path_eqb (path_join ws "package.json") (path_join ws ".babelrc") = false.
Proof.
  change (path_join ws "package.json") with (ws ++ ["package.json"]).
  change (path_join ws ".babelrc") with (ws ++ [".babelrc"]).
  now rewrite path_eqb_app.
Qed.

Lemma writeFile_Some p c s fs' :
  write_file (st_fs s) p c = Some fs' ->
  writeFile p c s =
  (Ok tt, mkState fs' (st_count s) (st_calls s) (st_log s ++ [EvWrite p c])).
Proof. unfold writeFile. now intros ->. Qed.

Lemma writeFile_None p c s :
  write_file (st_fs s) p c = None ->
  writeFile p c s = (Err (JsError "ENOENT or EISDIR"), s).
Proof. unfold writeFile. now intros ->. Qed.

Lemma setupNodeProject_effects oracle ws ext s res sA :
  setupNodeProject oracle ws ext s = (res, sA) ->
  (res <> Ok tt /\
   (st_log sA = st_log s \/
    st_log sA = st_log s ++
      [EvWrite (path_join ws "package.json") (stringify 0 packageJsonTemplate)])) \/
  exists fs1 r1,
    read_file fs1 (path_join ws "package.json") = Some (stringify 0 packageJsonTemplate) /\
    read_file fs1 (path_join ws ".babelrc") = Some (stringify 0 babelConfigTemplate) /\
    st_log sA = st_log s ++
      [EvWrite (path_join ws "package.json") (stringify 0 packageJsonTemplate);
       EvWrite (path_join ws ".babelrc") (stringify 0 babelConfigTemplate);
       EvExec (in_workspace ws "npm install") fs1 r1].
Proof.
  unfold setupNodeProject.
  set (pj := path_join ws "package.json").
  set (rc := path_join ws ".babelrc").
  set (pkg := stringify 0 packageJsonTemplate).
  set (bab := stringify 0 babelConfigTemplate).
  set (npm := in_workspace ws "npm install").
  intro H.
  destruct (write_file (st_fs s) pj pkg) as [fa|] eqn:W1.
  2: { rewrite (bind_Err _ _ _ _ _ (writeFile_None _ _ _ W1)) in H.
       injection H as <- <-. left. split; [discriminate | now left]. }
  rewrite (bind_Ok _ _ _ _ _ (writeFile_Some _ _ _ _ W1)) in H.
  set (sa := mkState fa _ _ _) in H.
  destruct (write_file fa rc bab) as [fb|] eqn:W2.
  2: { rewrite (bind_Err _ _ _ _ _ (writeFile_None _ _ sa W2)) in H.
       injection H as <- <-. left. split; [discriminate | now right]. }
  rewrite (bind_Ok _ _ _ _ _ (writeFile_Some _ _ sa _ W2)) in H.
  assert (Hpj : read_file fb pj = Some pkg).
  { unfold read_file. rewrite (write_file_lookup _ _ _ _ _ W2).
    unfold rc, pj. rewrite package_json_babelrc_distinct. fold pj.
    rewrite (write_file_lookup _ _ _ _ _ W1).
    unfold path_eqb. now destruct list_eq_dec. }
  assert (Hrc : read_file fb rc = Some bab).
  { unfold read_file. rewrite (write_file_lookup _ _ _ _ _ W2).
    unfold path_eqb. now destruct list_eq_dec. }
  unfold bind, executeCommand in H. simpl in H.
  destruct (oracle (st_calls s) npm fb) as [r1 fc].
  right. exists fb, r1. repeat split; auto.
  destruct (settle npm r1); simpl in H; injection H as <- <-; simpl;
    now rewrite <- !app_assoc.
Qed.

(** C10: once the entry file has a run command, the step that runs it
    ([run_entry], the last step of [runCode]) does the following.  For the
    extensions [.jsx], [.tsx] and [.ts] it first overwrites
    [package.json], then [.babelrc], with the fixed templates, and runs
    [npm install] on a filesystem where both files hold exactly those
    templates; only then, if [npm install] did not raise, is the entry file
    run.  A failing write stops it earlier.  For every other extension the
    run command is the only effect, and it starts on the filesystem as it
    was, so both files are unchanged. *)
Theorem run_entry_node_setup_before_run :
  forall oracle ws file s,
  match getRunCommand (to_lower (extname file)) file with
  | None =>
      run_entry oracle ws file s =
      (Err (JsError ("Unsupported file type: " +++ to_lower (extname file))), s)
  | Some cmd =>
      exists l, st_log (snd (run_entry oracle ws file s)) = st_log s ++ l /\
      if existsb (String.eqb (to_lower (extname file))) node_extensions then
        l = [] \/
        l = [EvWrite (path_join ws "package.json") (stringify 0 packageJsonTemplate)] \/
        exists fs1 r1,
          read_file fs1 (path_join ws "package.json") =
            Some (stringify 0 packageJsonTemplate) /\
          read_file fs1 (path_join ws ".babelrc") =
            Some (stringify 0 babelConfigTemplate) /\
          let pre := [EvWrite (path_join ws "package.json") (stringify 0 packageJsonTemplate);
                      EvWrite (path_join ws ".babelrc") (stringify 0 babelConfigTemplate);
                      EvExec (in_workspace ws "npm install") fs1 r1] in
          (l = pre \/ exists fs2 r2, l = pre ++ [EvExec cmd fs2 r2])
      else exists r, l = [EvExec cmd (st_fs s) r]
  end.
Proof.
  intros oracle ws file s. unfold run_entry.
  destruct (getRunCommand _ file) as [cmd|]; [|reflexivity].
  destruct (existsb _ node_extensions).
  - unfold bind at 1.
    destruct (setupNodeProject oracle ws (to_lower (extname file)) s) as [res sA] eqn:Es.
    apply setupNodeProject_effects in Es as H.
    destruct H as [[Hne Hl] | [fs1 [r1 [R1 [R2 Hl]]]]].
    + destruct res as [[]|e]; [contradiction|]. simpl.
      destruct Hl as [Hl|Hl]; rewrite Hl; [exists [] | exists [EvWrite (path_join ws "package.json") (stringify 0 packageJsonTemplate)]];
        rewrite ?app_nil_r; auto.
    + destruct res as [u|e]; simpl.
      * unfold bind, ret, executeCommand.
        destruct (oracle (st_calls sA) cmd (st_fs sA)) as [r2 fd].
        destruct (settle cmd r2); simpl;
          (eexists; split; [rewrite Hl, <- app_assoc; reflexivity|]);
          right; right; exists fs1, r1; repeat split; auto;
          right; do 2 eexists; reflexivity.
      * eexists. split; [exact Hl|]. right; right. exists fs1, r1. auto.
  - unfold bind, ret, executeCommand.
    destruct (oracle (st_calls s) cmd (st_fs s)) as [r fs'].
    destruct (settle cmd r); simpl; exists [EvExec cmd (st_fs s) r]; eauto.
Qed.

(** ** Concrete runs *)


(** C6: a request carrying both [code]/[filename] and [filepath] is
    accepted and runs the inline file. *)
Lemma runCode_accepts_both_forms :
  match fst (runCode demo_base no_json (oracle_ending (Exited 0) "1" EmptyString) rm_ok
               (mkOptions (Some "print(1)") (Some "a.py") (Some "/elsewhere/b.py")
                          None None None) demo_state) with
  | Ok r => r_entryPoint r = "/tmp/shadow/workspace_1/a.py"
  | Err _ => False
  end.
Proof. vm_compute. reflexivity. Qed.

Lemma runCode_rejects_request_without_code_or_path_witness :
  let o := mkOptions None (Some "a.py") None None None None in
  let o2 := mkOptions (Some "print(1)") (Some "a.py") (Some "/elsewhere/b.py")
                      None None None in
  (truthy_str (o_code o) && truthy_str (o_filename o) = false /\
   truthy_str (o_filepath o) = false /\
   let ws := demo_base ++ ["workspace_" +++ string_of_nat (S (st_count demo_state))] in
   let (r, s') := runCode demo_base no_json (oracle_ending (Exited 0) "1" EmptyString) rm_ok
                          o demo_state in
   (mkdir_p (st_fs demo_state) ws = None /\ r = Err (JsError "EEXIST or ENOTDIR") /\
    st_log s' = st_log demo_state /\ st_fs s' = st_fs demo_state)
   \/
   (mkdir_p (st_fs demo_state) ws <> None /\
    exists k last_ev,
      st_log s' = st_log demo_state ++
                  EvMkdir ws :: map (dep_write ws) (firstn k (deps_list o)) ++ [last_ev] /\
      (last_ev = EvRm ws \/ exists m, last_ev = EvRmFailed ws m) /\
      ((k = length (deps_list o) /\
        r = Err (JsError "Either code and filename or filepath must be provided")) \/
       (k < length (deps_list o) /\ r = Err (JsError "ENOENT or EISDIR"))))) /\
  (truthy_str (o_code o2) && truthy_str (o_filename o2) = true /\
   runCode demo_base no_json (oracle_ending (Exited 0) "1" EmptyString) rm_ok o2 =
   runCode demo_base no_json (oracle_ending (Exited 0) "1" EmptyString) rm_ok
     (mkOptions (o_code o2) (o_filename o2) None (o_dependencies o2)
                (o_entryPoint o2) (o_autoSetup o2))).
Proof.
  intros o o2. split.
  - assert (H1 : truthy_str (o_code o) && truthy_str (o_filename o) = false)
      by reflexivity.
    assert (H2 : truthy_str (o_filepath o) = false) by reflexivity.
    split; [exact H1|]. split; [exact H2|].
    exact (proj1 runCode_rejects_request_without_code_or_path
             demo_base no_json (oracle_ending (Exited 0) "1" EmptyString) rm_ok o demo_state
             H1 H2).
  - assert (H : truthy_str (o_code o2) && truthy_str (o_filename o2) = true)
      by reflexivity.
    split; [exact H|].
    exact (proj2 runCode_rejects_request_without_code_or_path
             demo_base no_json (oracle_ending (Exited 0) "1" EmptyString) rm_ok o2 None H).
Defined.

(** C7: with filename [../a.py] the main file is written next to the
    workspace, outside it, the run command still runs, and the file is
    left behind once the workspace is removed. *)
Lemma runCode_main_file_outside_workspace :
  let ws := ["tmp"; "shadow"; "workspace_1"] in
  let s' := snd (runCode demo_base no_json (oracle_ending (Exited 0) "1" EmptyString) rm_ok
                         (demo_request "print(1)" "../a.py") demo_state) in
  path_join ws "../a.py" = ["tmp"; "shadow"; "a.py"] /\
  is_prefix_path ws (path_join ws "../a.py") = false /\
  In (EvWrite ["tmp"; "shadow"; "a.py"] "print(1)") (st_log s') /\
  execs (st_log s') = ["python " +++ dq +++ "/tmp/shadow/a.py" +++ dq] /\
  read_file (st_fs s') ["tmp"; "shadow"; "a.py"] = Some "print(1)".
Proof. vm_compute. repeat split; auto. Qed.

Lemma runCode_writes_dependencies_then_main_witness :
  let o := mkOptions (Some "print(1)") (Some "a.py") None
                     (Some [mkDependency "X = 1" "util.py"]) None None in
  o_code o = Some "print(1)" /\ o_filename o = Some "a.py" /\
  String.eqb "print(1)" EmptyString = false /\ String.eqb "a.py" EmptyString = false /\
  exists l, st_log (snd (runCode demo_base no_json (oracle_ending (Exited 0) "1" EmptyString) rm_ok
                                 o demo_state)) = st_log demo_state ++ l /\
   (execs l <> [] ->
    exists ws rest,
      ws = demo_base ++ ["workspace_" +++ string_of_nat (S (st_count demo_state))] /\
      l = EvMkdir ws :: map (dep_write ws) (deps_list o) ++
          EvWrite (path_join ws "a.py") "print(1)" :: rest /\
      before_first_exec (fun fs => is_file fs (path_join ws "a.py")) rest = true /\
      (forallb seg_normal (split_slash "a.py") = true ->
       path_join ws "a.py" = ws ++ split_slash "a.py")).
Proof.
  intro o.
  assert (Hc : o_code o = Some "print(1)") by reflexivity.
  assert (Hf : o_filename o = Some "a.py") by reflexivity.
  assert (Ec : String.eqb "print(1)" EmptyString = false) by reflexivity.
  assert (Ef : String.eqb "a.py" EmptyString = false) by reflexivity.
  split; [exact Hc|]. split; [exact Hf|]. split; [exact Ec|]. split; [exact Ef|].
  exact (runCode_writes_dependencies_then_main demo_base no_json
           (oracle_ending (Exited 0) "1" EmptyString) rm_ok o demo_state _ _ Hc Hf Ec Ef).
Defined.

(** ** Witnesses of the entry-point theorems *)

Lemma detectEntryPoint_tier_order_witness :
  descendants main_py_only ["w"] = [(["w"; "main.py"], File "print(1)")] /\
  tier_framework main_py_only ["w"] = None /\
  tier_manifest no_json main_py_only ["w"] = None /\
  tier_conventional main_py_only ["w"] = Some (["w"] ++ ["main.py"]) /\
  detectEntryPoint no_json main_py_only ["w"] = Some (["w"] ++ ["main.py"]).
Proof.
  assert (H : descendants main_py_only ["w"] = [(["w"] ++ ["main.py"], File "print(1)")])
    by reflexivity.
  split; [exact H|].
  exact (proj2 (proj2 (proj2 (proj2 (detectEntryPoint_tier_order no_json main_py_only ["w"]))))
           "print(1)" H).
Defined.

Lemma framework_entry_wins_witness :
  tier_manifest start_server_json go_and_node ["w"] = Some ["w"; "server.js"] /\
  nth_error frameworkConfigs 4 = Some ("go.mod", "main.go") /\
  path_exists go_and_node (path_join ["w"] "go.mod") = true /\
  path_exists go_and_node (path_join ["w"] "main.go") = true /\
  exists j f' e',
    j <= 4 /\ nth_error frameworkConfigs j = Some (f', e') /\
    path_exists go_and_node (path_join ["w"] f') = true /\
    path_exists go_and_node (path_join ["w"] e') = true /\
    (forall k f'' e'', k < j -> nth_error frameworkConfigs k = Some (f'', e'') ->
       path_exists go_and_node (path_join ["w"] f'') = false \/
       path_exists go_and_node (path_join ["w"] e'') = false) /\
    detectEntryPoint start_server_json go_and_node ["w"] = Some (path_join ["w"] e').
Proof.
  assert (H1 : nth_error frameworkConfigs 4 = Some ("go.mod", "main.go")) by reflexivity.
  assert (H2 : path_exists go_and_node (path_join ["w"] "go.mod") = true) by reflexivity.
  assert (H3 : path_exists go_and_node (path_join ["w"] "main.go") = true) by reflexivity.
  split; [vm_compute; reflexivity|].
  split; [exact H1|]. split; [exact H2|]. split; [exact H3|].
  exact (framework_entry_wins start_server_json go_and_node ["w"] 4 _ _ H1 H2 H3).
Defined.

(** * Further properties of the handler *)

(** ** Strings *)

Lemma append_empty_r (s : string) : s +++ EmptyString = s.
Proof. induction s as [|c s IH]; simpl; [reflexivity | now rewrite IH]. Qed.

Lemma append_assoc_str (a b c : string) : (a +++ b) +++ c = a +++ b +++ c.
Proof. induction a as [|x a IH]; simpl; [reflexivity | now rewrite IH]. Qed.

Lemma starts_with_app s t pre :
  starts_with s pre = true -> starts_with (s +++ t) pre = true.
Proof.
  revert s. induction pre as [|c pre IH]; intros [|d s] H; simpl in *.
  - destruct t; reflexivity.
  - reflexivity.
  - discriminate.
  - apply andb_true_iff in H as [H1 H2]. rewrite H1. simpl. now apply IH.
Qed.

Lemma includes_of_starts_with s sub : starts_with s sub = true -> includes s sub = true.
Proof. intro H. destruct s; simpl; apply orb_true_iff; left; exact H. Qed.

Lemma starts_with_refl s : starts_with s s = true.
Proof. induction s as [|c s IH]; simpl; [reflexivity|]. now rewrite Ascii.eqb_refl, IH. Qed.

Lemma includes_refl s : includes s s = true.
Proof. apply includes_of_starts_with, starts_with_refl. Qed.

Lemma includes_app_l a b sub :
  includes a sub = true -> includes (a +++ b) sub = true.
Proof.
  induction a as [|c a IH]; intro H.
  - simpl in H. rewrite orb_false_r in H.
    apply includes_of_starts_with. exact (starts_with_app EmptyString b sub H).
  - simpl in H. apply orb_true_iff in H as [H|H]; simpl; apply orb_true_iff.
    + left. exact (starts_with_app (String c a) b sub H).
    + right. now apply IH.
Qed.

Lemma includes_app_r a b sub :
  includes b sub = true -> includes (a +++ b) sub = true.
Proof.
  induction a as [|c a IH]; intro H; simpl; [exact H|].
  apply orb_true_iff. right. now apply IH.
Qed.

(** ** Decimal workspace numbers *)

Lemma decimal_value_app acc a b :
  decimal_value acc (a +++ b) = decimal_value (decimal_value acc a) b.
Proof. revert acc. induction a as [|c a IH]; intro acc; simpl; auto. Qed.

Lemma decimal_value_digits_rev fuel n :
  n < fuel -> decimal_value 0 (digits_rev fuel n) = n.
Proof.
  revert n. induction fuel as [|f IH]; intros n Hn; [lia|].
  assert (Hm : n mod 10 < 10) by (apply Nat.mod_upper_bound; lia).
  assert (Hd : forall acc,
    decimal_value acc (String (ascii_of_nat (48 + n mod 10)) EmptyString)
    = acc * 10 + n mod 10).
  { intro acc. cbn [decimal_value]. rewrite nat_ascii_embedding by lia. lia. }
  cbn [digits_rev]. destruct (Nat.ltb n 10) eqn:E.
  - rewrite Hd. apply Nat.ltb_lt in E. rewrite Nat.mod_small by lia. lia.
  - apply Nat.ltb_ge in E. rewrite decimal_value_app, IH, Hd.
    + pose proof (Nat.div_mod_eq n 10). lia.
    + assert (n / 10 < n) by (apply Nat.div_lt; lia). lia.
Qed.

Lemma string_of_nat_inj n m : string_of_nat n = string_of_nat m -> n = m.
Proof.
  intro H. unfold string_of_nat in H.
  rewrite <- (decimal_value_digits_rev (S n) n), <- (decimal_value_digits_rev (S m) m)
    by lia.
  now rewrite H.
Qed.

(** ** The workspace counter *)

Lemma kc_ret {A} (a : A) : keeps_count (ret a).
Proof. intro s. reflexivity. Qed.

Lemma kc_throw {A} msg : keeps_count (@throw A msg).
Proof. intro s. reflexivity. Qed.

Lemma kc_get_fs : keeps_count get_fs.
Proof. intro s. reflexivity. Qed.

Lemma kc_findFiles dir pat : keeps_count (findFiles dir pat).
Proof. intro s. unfold findFiles. destruct (is_dir (st_fs s) dir); reflexivity. Qed.

Lemma kc_executeCommand oracle c : keeps_count (executeCommand oracle c).
Proof.
  intro s. unfold executeCommand. destruct (oracle (st_calls s) c (st_fs s)); reflexivity.
Qed.

Lemma kc_writeFile p c : keeps_count (writeFile p c).
Proof. intro s. unfold writeFile. destruct (write_file (st_fs s) p c); reflexivity. Qed.

Lemma kc_rmTree rm p : keeps_count (rmTree rm p).
Proof. intro s. unfold rmTree. destruct (rm _ _ _) as [[m kept]|]; reflexivity. Qed.

Lemma kc_bind {A B} (m : M A) (k : A -> M B) :
  keeps_count m -> (forall a, keeps_count (k a)) -> keeps_count (bind m k).
Proof.
  intros Hm Hk s. unfold bind. specialize (Hm s).
  destruct (m s) as [[a|e] s1]; simpl in *; [rewrite Hk|]; exact Hm.
Qed.

Lemma kc_catch {A} (m : M A) (h : js_error -> M A) :
  keeps_count m -> (forall e, keeps_count (h e)) -> keeps_count (catch_ m h).
Proof.
  intros Hm Hh s. unfold catch_. specialize (Hm s).
  destruct (m s) as [[a|e] s1]; simpl in *; [|rewrite Hh]; exact Hm.
Qed.

Lemma kc_finally {A} (m : M A) (f : M unit) :
  keeps_count m -> keeps_count f -> keeps_count (finally_ m f).
Proof.
  intros Hm Hf s. unfold finally_. specialize (Hm s).
  destruct (m s) as [r s1]. simpl in Hm. specialize (Hf s1).
  destruct (f s1) as [[u|e] s2]; simpl in *; congruence.
Qed.

Lemma kc_foldM {A B} (f : B -> A -> M B) :
  (forall b x, keeps_count (f b x)) -> forall l b, keeps_count (foldM f l b).
Proof.
  intros Hf l. induction l as [|x l IH]; intro b; simpl.
  - apply kc_ret.
  - apply kc_bind; auto.
Qed.

Ltac kc_tac :=
  repeat match goal with
  | |- keeps_count (bind _ _) => apply kc_bind; [|intro]
  | |- keeps_count (catch_ _ _) => apply kc_catch; [|intro]
  | |- keeps_count (finally_ _ _) => apply kc_finally
  | |- keeps_count (foldM _ _ _) => apply kc_foldM; intros
  | |- keeps_count (if ?c then _ else _) => destruct c
  | |- keeps_count (ret _) => apply kc_ret
  | |- keeps_count (throw _) => apply kc_throw
  | |- keeps_count get_fs => apply kc_get_fs
  | |- keeps_count (findFiles _ _) => apply kc_findFiles
  | |- keeps_count (executeCommand _ _) => apply kc_executeCommand
  | |- keeps_count (writeFile _ _) => apply kc_writeFile
  | |- keeps_count (rmTree _ _) => apply kc_rmTree
  end.

Lemma run_once_kc oracle ws cr c : keeps_count (run_once oracle ws cr c).
Proof. unfold run_once. kc_tac. Qed.

Lemma process_subdir_kc parse oracle ws cr sd :
  keeps_count (process_subdir parse oracle ws cr sd).
Proof.
  destruct sd as [dir cmds]. unfold process_subdir. kc_tac; apply run_once_kc.
Qed.

Lemma root_build_kc parse oracle ws cr : keeps_count (root_build parse oracle ws cr).
Proof.
  unfold root_build. kc_tac.
  destruct (read_json parse _ _) as [v|]; [|apply kc_ret].
  destruct (scripts_of v) as [sc|]; [|apply kc_ret].
  kc_tac. apply run_once_kc.
Qed.

Lemma detectAndRunSetupCommands_kc parse oracle ws :
  keeps_count (detectAndRunSetupCommands parse oracle ws).
Proof.
  unfold detectAndRunSetupCommands. kc_tac.
  unfold process_indicator. kc_tac;
    auto using run_once_kc, process_subdir_kc, root_build_kc.
Qed.

Lemma write_dependencies_kc ws deps : keeps_count (write_dependencies ws deps).
Proof. unfold write_dependencies. destruct deps as [[|d l]|]; kc_tac. Qed.

Lemma write_main_kc ws o : keeps_count (write_main ws o).
Proof. unfold write_main. kc_tac. Qed.

Lemma resolve_entry_kc parse ws o mp : keeps_count (resolve_entry parse ws o mp).
Proof.
  unfold resolve_entry. kc_tac.
  destruct (detectEntryPoint _ _ _); apply kc_ret.
Qed.

Lemma run_entry_kc oracle ws f : keeps_count (run_entry oracle ws f).
Proof.
  unfold run_entry. destruct (getRunCommand _ f); kc_tac.
  unfold setupNodeProject. kc_tac.
Qed.

Lemma cleanup_kc base rm id : keeps_count (cleanup base rm id).
Proof. unfold cleanup. kc_tac. Qed.

Lemma createWorkspaceDirectory_count base s :
  st_count (snd (createWorkspaceDirectory base s)) = S (st_count s).
Proof.
  unfold createWorkspaceDirectory. cbv beta zeta.
  destruct (mkdir_p _ _); reflexivity.
Qed.

Lemma createWorkspaceDirectory_path base s w s' :
  createWorkspaceDirectory base s = (Ok w, s') ->
  w = base ++ ["workspace_" +++ string_of_nat (S (st_count s))].
Proof.
  unfold createWorkspaceDirectory. cbv beta zeta.
  destruct (mkdir_p _ _); intro H; [injection H as <- _; reflexivity | discriminate].
Qed.

Lemma count_bind {A B} (m : M A) (k : A -> M B) d :
  (forall s, st_count (snd (m s)) = d + st_count s) ->
  (forall a, keeps_count (k a)) ->
  forall s, st_count (snd (bind m k s)) = d + st_count s.
Proof.
  intros Hm Hk s. unfold bind. specialize (Hm s).
  destruct (m s) as [[a|e] s1]; simpl in *; [rewrite Hk|]; exact Hm.
Qed.

Lemma runCode_count base parse oracle rm o s :
  st_count (snd (runCode base parse oracle rm o s)) = S (st_count s).
Proof.
  unfold runCode. apply (count_bind _ _ 1).
  - intro s0. apply createWorkspaceDirectory_count.
  - intro ws. apply kc_finally.
    + unfold runCode_body. kc_tac;
        auto using write_dependencies_kc, write_main_kc, detectAndRunSetupCommands_kc,
                   resolve_entry_kc, run_entry_kc.
    + kc_tac. apply cleanup_kc.
Qed.

(** ** Directories and removal *)

Lemma mkdir_p_aux_app fs done p q :
  mkdir_p_aux fs done (p ++ q) =
  match mkdir_p_aux fs done p with
  | None => None
  | Some fs' => mkdir_p_aux fs' (done ++ p) q
  end.
Proof.
  revert fs done. induction p as [|seg p IH]; intros fs done; simpl.
  - now rewrite app_nil_r.
  - destruct (lookup_node fs (done ++ [seg])) as [[c|]|]; [reflexivity| |];
      rewrite IH, <- app_assoc; reflexivity.
Qed.

Lemma mkdir_p_aux_lookup fs done rest fs' q :
  mkdir_p_aux fs done rest = Some fs' -> length (done ++ rest) < length q ->
  lookup_node fs' q = lookup_node fs q.
Proof.
  revert fs done. induction rest as [|seg rest IH]; intros fs done H Hl; simpl in H.
  - now injection H as <-.
  - rewrite length_app in Hl. simpl in Hl.
    destruct (lookup_node fs (done ++ [seg])) as [[c|]|]; [discriminate| |].
    + apply (IH fs (done ++ [seg])); auto. rewrite !length_app. simpl. lia.
    + rewrite (IH _ (done ++ [seg]) H) by (rewrite !length_app; simpl; lia).
      destruct q as [|a q]; [simpl in Hl; lia|].
      unfold lookup_node. rewrite lookup_entries_snoc.
      destruct (lookup_entries fs (a :: q)); [reflexivity|].
      destruct (path_eqb (a :: q) (done ++ [seg])) eqn:E; [|reflexivity].
      apply path_eqb_true in E. rewrite E, length_app in Hl. simpl in Hl. lia.
Qed.

Lemma lookup_node_rm_rf fs p q :
  p <> [] ->
  lookup_node (rm_rf fs p) q = if is_prefix_path p q then None else lookup_node fs q.
Proof.
  intro Hp. destruct q as [|a q].
  - destruct p; [contradiction|]. reflexivity.
  - unfold lookup_node, rm_rf. induction fs as [|[r n] fs IH]; simpl.
    + now destruct (is_prefix_path p (a :: q)).
    + destruct (is_prefix_path p r) eqn:Er; simpl.
      * rewrite IH. destruct (path_eqb (a :: q) r) eqn:E; [|reflexivity].
        apply path_eqb_true in E. subst r. now rewrite Er.
      * destruct (path_eqb (a :: q) r) eqn:E.
        -- apply path_eqb_true in E. subst r. now rewrite Er.
        -- exact IH.
Qed.

Lemma lookup_entries_filter_fst (g : path -> bool) fs q :
  lookup_entries (filter (fun e => g (fst e)) fs) q =
  if g q then lookup_entries fs q else None.
Proof.
  induction fs as [|[r n] fs IH]; simpl; [now destruct (g q)|].
  destruct (path_eqb q r) eqn:E.
  - apply path_eqb_true in E. subst r.
    destruct (g q) eqn:G; simpl; [now rewrite (proj2 (path_eqb_true q q) eq_refl)|].
    rewrite IH. first [reflexivity | rewrite G; reflexivity].
  - destruct (g r); simpl; [rewrite E|]; exact IH.
Qed.

Lemma lookup_node_rm_partial fs p kept q :
  p <> [] ->
  lookup_node (rm_partial fs p kept) q =
  if is_prefix_path p q && negb (existsb (path_eqb q) kept) then None else lookup_node fs q.
Proof.
  intro Hp. destruct q as [|a q].
  - destruct p; [contradiction|]. reflexivity.
  - unfold lookup_node, rm_partial.
    rewrite (lookup_entries_filter_fst
               (fun r => negb (is_prefix_path p r) || existsb (path_eqb r) kept)).
    destruct (is_prefix_path p (a :: q)), (existsb (path_eqb (a :: q)) kept); reflexivity.
Qed.

Lemma mkdir_p_aux_lookup_other fs done rest fs' q :
  mkdir_p_aux fs done rest = Some fs' -> is_prefix_path q (done ++ rest) = false ->
  lookup_node fs' q = lookup_node fs q.
Proof.
  revert fs done. induction rest as [|seg rest IH]; intros fs done H Hp; simpl in H.
  - now injection H as <-.
  - replace (done ++ seg :: rest) with ((done ++ [seg]) ++ rest) in Hp
      by (now rewrite <- app_assoc).
    destruct (lookup_node fs (done ++ [seg])) as [[c|]|]; [discriminate| |].
    + exact (IH fs (done ++ [seg]) H Hp).
    + rewrite (IH _ (done ++ [seg]) H Hp).
      destruct q as [|a q]; [discriminate|].
      unfold lookup_node. rewrite lookup_entries_snoc.
      destruct (lookup_entries fs (a :: q)); [reflexivity|].
      destruct (path_eqb (a :: q) (done ++ [seg])) eqn:E; [|reflexivity].
      apply path_eqb_true in E. rewrite E, is_prefix_path_app in Hp. discriminate.
Qed.

Lemma lookup_entries_In fs p n : In (p, n) fs -> exists n', lookup_entries fs p = Some n'.
Proof.
  induction fs as [|[q m] fs IH]; simpl; [contradiction|]. intros [E|H].
  - injection E as -> ->. rewrite (proj2 (path_eqb_true p p) eq_refl). eauto.
  - destruct (path_eqb p q); eauto.
Qed.

(** ** First hits *)

Lemma first_some_In {A B} (f : A -> option B) l b :
  first_some f l = Some b -> exists x, In x l /\ f x = Some b.
Proof.
  induction l as [|a l IH]; simpl; [discriminate|].
  destruct (f a) eqn:E; intro H.
  - injection H as <-. eauto.
  - destruct (IH H) as [x [Hx Hf]]. eauto.
Qed.

Lemma first_some_Some_iff {A B} (f : A -> option B) l b :
  first_some f l = Some b <->
  exists i x, nth_error l i = Some x /\ f x = Some b /\
    (forall k z, k < i -> nth_error l k = Some z -> f z = None).
Proof.
  induction l as [|a l IH]; simpl.
  - split; [discriminate|]. intros [i [x [H _]]]. destruct i; discriminate.
  - destruct (f a) as [b0|] eqn:Ea.
    + split.
      * intro H. injection H as <-. exists 0, a. repeat split; auto.
        intros k z Hk. lia.
      * intros [i [x [Hi [Hx Hb]]]]. destruct i as [|i].
        -- simpl in Hi. injection Hi as <-. congruence.
        -- specialize (Hb 0 a ltac:(lia) eq_refl). congruence.
    + rewrite IH. split.
      * intros [i [x [Hi [Hx Hb]]]]. exists (S i), x. repeat split; auto.
        intros [|k] z Hk Hz; simpl in Hz; [congruence|].
        apply (Hb k); auto. lia.
      * intros [i [x [Hi [Hx Hb]]]]. destruct i as [|i]; simpl in Hi.
        -- injection Hi as <-. congruence.
        -- exists i, x. repeat split; auto.
           intros k z Hk Hz. apply (Hb (S k)); auto. lia.
Qed.

Lemma first_some_None_iff {A B} (f : A -> option B) l :
  first_some f l = None <-> forall x, In x l -> f x = None.
Proof.
  induction l as [|a l IH]; simpl.
  - split; [intros _ x []|reflexivity].
  - destruct (f a) as [b|] eqn:Ea; split.
    + discriminate.
    + intro H. rewrite (H a (or_introl eq_refl)) in Ea. discriminate.
    + intros Hn x [<-|Hx]; [exact Ea|]. now apply IH.
    + intro H. apply IH. intros x Hx. apply H. now right.
Qed.

Lemma match_map_filter {A C} (g : A * C -> bool) (l : list (A * C)) {B} (x y : B) :
  match map fst (filter g l) with [] => x | _ :: _ => y end =
  if existsb g l then y else x.
Proof.
  induction l as [|a l IH]; simpl; [reflexivity|].
  destruct (g a); simpl; [reflexivity | exact IH].
Qed.

(** ** Commands spawned *)

Lemma sam_weaken {A} n n' (m : M A) :
  spawns_at_most n m -> n <= n' -> spawns_at_most n' m.
Proof. intros H Hn s. destruct (H s) as [l [Hl Hlen]]. exists l. split; [exact Hl | lia]. Qed.

Lemma sam_ret {A} (a : A) : spawns_at_most 0 (ret a).
Proof. intro s. exists []. rewrite app_nil_r. split; [reflexivity | simpl; lia]. Qed.

Lemma sam_throw {A} msg : spawns_at_most 0 (@throw A msg).
Proof. intro s. exists []. rewrite app_nil_r. split; [reflexivity | simpl; lia]. Qed.

Lemma sam_get_fs : spawns_at_most 0 get_fs.
Proof. intro s. exists []. rewrite app_nil_r. split; [reflexivity | simpl; lia]. Qed.

Lemma sam_writeFile p c : spawns_at_most 0 (writeFile p c).
Proof.
  intro s. unfold writeFile. destruct (write_file (st_fs s) p c); simpl.
  - exists [EvWrite p c]. split; [reflexivity | simpl; lia].
  - exists []. rewrite app_nil_r. split; [reflexivity | simpl; lia].
Qed.

Lemma sam_rmTree rm p : spawns_at_most 0 (rmTree rm p).
Proof.
  intro s. unfold rmTree. destruct (rm _ _ _) as [[m kept]|].
  - exists [EvRmFailed p m]. split; [reflexivity | simpl; lia].
  - exists [EvRm p]. split; [reflexivity | simpl; lia].
Qed.

Lemma sam_executeCommand oracle c : spawns_at_most 1 (executeCommand oracle c).
Proof.
  intro s. unfold executeCommand. destruct (oracle (st_calls s) c (st_fs s)) as [r fs'].
  exists [EvExec c (st_fs s) r]. split; [reflexivity | simpl; lia].
Qed.

Lemma sam_createWorkspaceDirectory base : spawns_at_most 0 (createWorkspaceDirectory base).
Proof.
  intro s. unfold createWorkspaceDirectory. cbv beta zeta.
  destruct (mkdir_p _ _) as [fs'|]; simpl.
  - eexists. split; [reflexivity | simpl; lia].
  - exists []. rewrite app_nil_r. split; [reflexivity | simpl; lia].
Qed.

Lemma sam_bind {A B} a b (m : M A) (k : A -> M B) :
  spawns_at_most a m -> (forall x, spawns_at_most b (k x)) ->
  spawns_at_most (a + b) (bind m k).
Proof.
  intros Hm Hk s. unfold bind. destruct (Hm s) as [l1 [Hl1 H1]].
  destruct (m s) as [[x|e] s1]; simpl in Hl1 |- *.
  - destruct (Hk x s1) as [l2 [Hl2 H2]]. exists (l1 ++ l2).
    rewrite Hl2, Hl1, app_assoc, execs_app, length_app. split; [reflexivity | lia].
  - exists l1. split; [exact Hl1 | lia].
Qed.

Lemma sam_catch {A} a b (m : M A) (h : js_error -> M A) :
  spawns_at_most a m -> (forall e, spawns_at_most b (h e)) ->
  spawns_at_most (a + b) (catch_ m h).
Proof.
  intros Hm Hh s. unfold catch_. destruct (Hm s) as [l1 [Hl1 H1]].
  destruct (m s) as [[x|e] s1]; simpl in Hl1 |- *.
  - exists l1. split; [exact Hl1 | lia].
  - destruct (Hh e s1) as [l2 [Hl2 H2]]. exists (l1 ++ l2).
    rewrite Hl2, Hl1, app_assoc, execs_app, length_app. split; [reflexivity | lia].
Qed.

Lemma sam_finally {A} a b (m : M A) (f : M unit) :
  spawns_at_most a m -> spawns_at_most b f -> spawns_at_most (a + b) (finally_ m f).
Proof.
  intros Hm Hf s. unfold finally_. destruct (Hm s) as [l1 [Hl1 H1]].
  destruct (m s) as [r s1]. simpl in Hl1. destruct (Hf s1) as [l2 [Hl2 H2]].
  destruct (f s1) as [[u|e] s2]; simpl in Hl2 |- *;
    (exists (l1 ++ l2); rewrite Hl2, Hl1, app_assoc, execs_app, length_app;
     split; [reflexivity | lia]).
Qed.

Lemma sam_if {A} a b (c : bool) (m1 m2 : M A) :
  spawns_at_most a m1 -> spawns_at_most b m2 ->
  spawns_at_most (Nat.max a b) (if c then m1 else m2).
Proof. intros H1 H2. destruct c; eapply sam_weaken; eauto; lia. Qed.

Lemma sam_foldM0 {A B} (f : B -> A -> M B) :
  (forall b x, spawns_at_most 0 (f b x)) -> forall l b, spawns_at_most 0 (foldM f l b).
Proof.
  intros Hf l. induction l as [|x l IH]; intro b; simpl.
  - apply sam_ret.
  - apply (sam_bind 0 0); auto.
Qed.

Lemma sam_write_dependencies ws deps : spawns_at_most 0 (write_dependencies ws deps).
Proof.
  unfold write_dependencies. destruct deps as [[|d l]|]; try apply sam_ret.
  apply sam_foldM0. intros. apply sam_writeFile.
Qed.

Lemma sam_write_main ws o : spawns_at_most 0 (write_main ws o).
Proof.
  unfold write_main. destruct (truthy_str (o_code o) && truthy_str (o_filename o)).
  - apply (sam_bind 0 0); [apply sam_writeFile | intro; apply sam_ret].
  - destruct (truthy_str (o_filepath o)); [apply sam_ret | apply sam_throw].
Qed.

Lemma sam_resolve_entry parse ws o mp : spawns_at_most 0 (resolve_entry parse ws o mp).
Proof.
  unfold resolve_entry. destruct (truthy_str (o_entryPoint o)); [apply sam_ret|].
  apply (sam_bind 0 0); [apply sam_get_fs|]. intro fs.
  destruct (detectEntryPoint _ _ _); apply sam_ret.
Qed.

Lemma sam_setupNodeProject oracle ws ext : spawns_at_most 1 (setupNodeProject oracle ws ext).
Proof.
  unfold setupNodeProject.
  apply (sam_bind 0 1); [apply sam_writeFile | intro].
  apply (sam_bind 0 1); [apply sam_writeFile | intro].
  apply (sam_bind 1 0); [apply sam_executeCommand | intro; apply sam_ret].
Qed.

Lemma sam_run_entry oracle ws f : spawns_at_most 2 (run_entry oracle ws f).
Proof.
  unfold run_entry. cbv zeta. destruct (getRunCommand _ _) as [rc|].
  - apply (sam_bind 1 1).
    + eapply sam_weaken; [apply (sam_if 1 0); [apply sam_setupNodeProject | apply sam_ret]|].
      lia.
    + intro. apply (sam_bind 1 0); [apply sam_executeCommand | intro; apply sam_ret].
  - eapply sam_weaken; [apply sam_throw | lia].
Qed.

Lemma sam_cleanup base rm id : spawns_at_most 0 (cleanup base rm id).
Proof. apply sam_rmTree. Qed.

(** ** Paths as strings *)

Lemma split_slash_aux_snoc cur s rest :
  exists l, split_slash_aux cur (s +++ String "/" rest) = l ++ split_slash_aux EmptyString rest.
Proof.
  revert cur. induction s as [|c s IH]; intro cur; simpl.
  - exists [cur]. reflexivity.
  - destruct (Ascii.eqb c "/"%char).
    + destruct (IH EmptyString) as [l Hl]. exists (cur :: l). rewrite Hl. reflexivity.
    + apply IH.
Qed.

Lemma concat_snoc sep l a :
  l <> [] -> String.concat sep (l ++ [a]) = String.concat sep l +++ sep +++ a.
Proof.
  induction l as [|x l IH]; intro H; [contradiction|].
  destruct l as [|y l]; [reflexivity|].
  transitivity (x +++ sep +++ String.concat sep ((y :: l) ++ [a])); [reflexivity|].
  transitivity ((x +++ sep +++ String.concat sep (y :: l)) +++ sep +++ a); [|reflexivity].
  rewrite IH by discriminate. now rewrite !append_assoc_str.
Qed.

Lemma path_str_snoc p b : exists s, path_str (p ++ [b]) = s +++ String "/" b.
Proof.
  unfold path_str. destruct p as [|x p].
  - exists EmptyString. reflexivity.
  - exists ("/" +++ String.concat "/" (x :: p)).
    rewrite concat_snoc by discriminate. rewrite append_assoc_str. reflexivity.
Qed.

Lemma extname_path_str_snoc p b :
  split_slash_aux EmptyString b = [b] -> String.eqb b EmptyString = false ->
  extname (path_str (p ++ [b])) = extname b.
Proof.
  intros Hb Hne. destruct (path_str_snoc p b) as [s Hs]. rewrite Hs.
  unfold extname, split_slash.
  destruct (split_slash_aux_snoc EmptyString s b) as [l Hl]. rewrite Hl, Hb.
  rewrite filter_app. simpl. rewrite Hne. simpl. rewrite last_last. reflexivity.
Qed.

(** ** Further handler lemmas *)

Lemma assoc_str_In k l v : assoc_str k l = Some v -> In (k, v) l.
Proof.
  induction l as [|[k' v'] l IH]; simpl; [discriminate|].
  destruct (String.eqb k k') eqn:E; intro H.
  - injection H as <-. apply String.eqb_eq in E. subst. now left.
  - right. exact (IH H).
Qed.

Lemma runCode_unfold base parse oracle rm o s :
  runCode base parse oracle rm o s =
  match createWorkspaceDirectory base s with
  | (Ok ws, s1) =>
      finally_ (runCode_body parse oracle ws o)
               (catch_ (cleanup base rm (last ws EmptyString)) (fun _ => ret tt)) s1
  | (Err e, s1) => (Err e, s1)
  end.
Proof. reflexivity. Qed.

Lemma createWorkspaceDirectory_fst_path base s w :
  fst (createWorkspaceDirectory base s) = Ok w ->
  w = base ++ ["workspace_" +++ string_of_nat (S (st_count s))].
Proof.
  unfold createWorkspaceDirectory. cbv beta zeta.
  destruct (mkdir_p _ _); simpl; intro H; [injection H as <-; reflexivity | discriminate].
Qed.

Lemma hasAnyFile_eq dir patterns s :
  hasAnyFile dir patterns s =
  (if is_dir (st_fs s) dir
   then Ok (existsb (fun pattern =>
              existsb (fun e : path * node => match snd e with
                                | Dir => false
                                | File _ => matchesPattern (last (fst e) EmptyString) pattern
                                end) (descendants (st_fs s) dir)) patterns)
   else match patterns with
        | [] => Ok false
        | _ :: _ => Err (JsError "ENOENT: no such file or directory, scandir")
        end, s).
Proof.
  induction patterns as [|pat ps IH]; simpl.
  - destruct (is_dir (st_fs s) dir); reflexivity.
  - unfold bind, findFiles. destruct (is_dir (st_fs s) dir) eqn:E; [|reflexivity].
    rewrite match_map_filter.
    simpl. destruct (existsb _ (descendants (st_fs s) dir)); [reflexivity|].
    rewrite IH. reflexivity.
Qed.

Lemma msg_includes cmd err t :
  includes cmd t = true \/ includes err t = true ->
  includes ("Command failed: " +++ cmd +++ nl +++ err) t = true.
Proof.
  intros [H|H]; apply includes_app_r.
  - now apply includes_app_l.
  - now apply includes_app_r, includes_app_r.
Qed.

Lemma manifest_scan_exists fs ws es p :
  manifest_scan fs ws es = Some p -> path_exists fs p = true.
Proof.
  induction es as [|[j|] es IH]; simpl; intro H; try discriminate.
  destruct j as [|b|n|e|l|kvs]; try discriminate.
  destruct (path_exists fs (path_join ws e)) eqn:E; [injection H as <-; exact E | exact (IH H)].
Qed.

Lemma write_file_no_parent fs p c :
  p <> [] -> is_dir fs (removelast p) = false -> write_file fs p c = None.
Proof.
  unfold write_file. destruct p as [|a p]; [contradiction|]. intros _ H. now rewrite H.
Qed.

Lemma writeFile_not_dir q p c st :
  is_dir (st_fs st) q = false ->
  is_dir (st_fs (snd (writeFile p c st))) q = false /\
  st_calls (snd (writeFile p c st)) = st_calls st.
Proof.
  unfold writeFile. destruct (write_file (st_fs st) p c) as [fs'|] eqn:W; simpl; [|auto].
  intro H. split; [|reflexivity]. unfold is_dir in *.
  rewrite (write_file_lookup _ _ _ _ _ W). destruct (path_eqb q p); auto.
Qed.

Lemma write_dependencies_not_dir ws deps q st :
  is_dir (st_fs st) q = false ->
  is_dir (st_fs (snd (write_dependencies ws deps st))) q = false /\
  st_calls (snd (write_dependencies ws deps st)) = st_calls st.
Proof.
  unfold write_dependencies. destruct deps as [[|d l]|]; try (simpl; auto; fail).
  generalize (d :: l) as ds. clear d l. intro ds. generalize tt as b. revert st.
  induction ds as [|x ds IH]; intros st b H; simpl; [auto|].
  unfold bind. pose proof (writeFile_not_dir q (path_join ws (dep_filename x)) (dep_code x) st H)
    as [H1 C1].
  destruct (writeFile (path_join ws (dep_filename x)) (dep_code x) st) as [[u|e] st1];
    simpl in H1, C1 |- *.
  - destruct (IH st1 u H1) as [H2 C2]. split; [exact H2 | congruence].
  - auto.
Qed.

Lemma substring_app_r a b n :
  String.substring (String.length a) n (a +++ b) = String.substring 0 n b.
Proof. induction a as [|c a IH]; simpl; [reflexivity | exact IH]. Qed.

Lemma substring_full b : String.substring 0 (String.length b) b = b.
Proof. induction b as [|c b IH]; simpl; [reflexivity | now rewrite IH]. Qed.

Lemma length_append_str a b :
  String.length (a +++ b) = String.length a + String.length b.
Proof. induction a as [|c a IH]; simpl; [reflexivity | now rewrite IH]. Qed.

Lemma ends_with_app a b : ends_with (a +++ b) b = true.
Proof.
  unfold ends_with. rewrite length_append_str.
  replace (String.length a + String.length b - String.length b) with (String.length a)
    by lia.
  rewrite substring_app_r, substring_full, String.eqb_refl, andb_true_r.
  apply Nat.leb_le. lia.
Qed.

Lemma mkdir_p_aux_keeps fs done rest fs' q n :
  mkdir_p_aux fs done rest = Some fs' ->
  lookup_node fs q = Some n -> lookup_node fs' q = Some n.
Proof.
  revert fs done. induction rest as [|seg rest IH]; intros fs done H Hq; simpl in H.
  - now injection H as <-.
  - destruct (lookup_node fs (done ++ [seg])) as [[c|]|]; [discriminate| |].
    + exact (IH _ _ H Hq).
    + apply (IH _ _ H). destruct q as [|a q]; [exact Hq|].
      unfold lookup_node in *. now rewrite lookup_entries_snoc, Hq.
Qed.

Lemma mkdir_p_aux_dir fs done rest fs' :
  mkdir_p_aux fs done rest = Some fs' -> is_dir fs done = true ->
  is_dir fs' (done ++ rest) = true.
Proof.
  revert fs done. induction rest as [|seg rest IH]; intros fs done H Hd; simpl in H.
  - injection H as <-. now rewrite app_nil_r.
  - replace (done ++ seg :: rest) with ((done ++ [seg]) ++ rest)
      by (now rewrite <- app_assoc).
    destruct (lookup_node fs (done ++ [seg])) as [[c|]|] eqn:L; [discriminate| |].
    + apply (IH _ _ H). unfold is_dir. now rewrite L.
    + apply (IH _ _ H). unfold is_dir, lookup_node in *.
      destruct (done ++ [seg]) as [|a q] eqn:E.
      * apply app_eq_nil in E as [_ E]. discriminate.
      * rewrite lookup_entries_snoc, L.
        replace (path_eqb (a :: q) (a :: q)) with true
          by (symmetry; now apply path_eqb_true). reflexivity.
Qed.

Lemma mkdir_p_dir fs p fs' : mkdir_p fs p = Some fs' -> is_dir fs' p = true.
Proof. intro H. exact (mkdir_p_aux_dir fs [] p fs' H eq_refl). Qed.

(** ** Extra properties *)

(** X1 (getRunCommand): every command of the table names the file it runs
    between double quotes: the returned command contains ["<filePath>"]. *)
Theorem getRunCommand_quotes_file_path extension filePath cmd :
  getRunCommand extension filePath = Some cmd -> includes cmd (quoted filePath) = true.
Proof.
  unfold getRunCommand. intro H. apply assoc_str_In in H.
  unfold run_commands in H. cbv zeta in H.
  repeat (destruct H as [H|H];
          [apply (f_equal snd) in H; cbv delta [snd] beta iota in H; rewrite <- H;
           repeat first [ apply includes_refl
                        | apply includes_app_l; apply includes_refl
                        | apply includes_app_r ] |]).
  contradiction.
Qed.

(** X2 (getStartCommand): when package.json parses and has a [scripts]
    value, a truthy [dev] script gives [npm run dev], otherwise a truthy
    [start] script gives [npm start], whatever files the workspace holds.
    The package.json step falls through exactly when the file is missing
    or not JSON, when it is [null], or when neither script is truthy. *)
Theorem getStartCommand_package_scripts parse fs ws :
  (forall v sc,
     read_json parse fs (path_join ws "package.json") = Some v -> scripts_of v = Some sc ->
     (script_truthy sc "dev" = true -> getStartCommand parse fs ws = Some "npm run dev") /\
     (script_truthy sc "dev" = false -> script_truthy sc "start" = true ->
      getStartCommand parse fs ws = Some "npm start")) /\
  (package_start_command parse fs ws = None <->
   read_json parse fs (path_join ws "package.json") = None \/
   exists v, read_json parse fs (path_join ws "package.json") = Some v /\
     (scripts_of v = None \/
      exists sc, scripts_of v = Some sc /\ script_truthy sc "dev" = false /\
                 script_truthy sc "start" = false)).
Proof.
  split.
  - intros v sc R Sc. unfold getStartCommand, package_start_command. rewrite R, Sc.
    split; intro D; [now rewrite D|]. intro St. now rewrite D, St.
  - unfold package_start_command.
    destruct (read_json parse fs (path_join ws "package.json")) as [v|] eqn:R.
    + destruct (scripts_of v) as [sc|] eqn:Sc.
      * destruct (script_truthy sc "dev") eqn:D;
          [|destruct (script_truthy sc "start") eqn:St].
        -- split; [discriminate|].
           intros [H|[v0 [Hv [H|[sc0 [Hsc [Hd Hst]]]]]]]; congruence.
        -- split; [discriminate|].
           intros [H|[v0 [Hv [H|[sc0 [Hsc [Hd Hst]]]]]]]; congruence.
        -- split; [|reflexivity]. intros _. right. exists v. split; [reflexivity|].
           right. exists sc. auto.
      * split; [|reflexivity]. intros _. right. exists v. split; [reflexivity|]. now left.
    + split; [|reflexivity]. intros _. now left.
Qed.

(** X3 (getStartCommand): when the package.json step falls through, the
    answer is the command of the first entry of [startPatterns] whose file
    exists in the workspace (a directory of that name counts too), and
    [null] exactly when none of the six exists. *)
Theorem getStartCommand_start_patterns parse fs ws :
  package_start_command parse fs ws = None ->
  (forall c, getStartCommand parse fs ws = Some c <->
     exists i f, nth_error startPatterns i = Some (f, c) /\
       path_exists fs (path_join ws f) = true /\
       (forall k f' c', k < i -> nth_error startPatterns k = Some (f', c') ->
          path_exists fs (path_join ws f') = false)) /\
  (getStartCommand parse fs ws = None <->
     forall f c, In (f, c) startPatterns -> path_exists fs (path_join ws f) = false).
Proof.
  intro Hn. unfold getStartCommand. rewrite Hn. split.
  - intro c. rewrite first_some_Some_iff. split.
    + intros [i [[f c0] [Hi [Hx Hb]]]]. simpl in Hx.
      destruct (path_exists fs (path_join ws f)) eqn:E; [|discriminate].
      injection Hx as <-. exists i, f. split; [exact Hi|]. split; [exact E|].
      intros k f' c' Hk Hk'. specialize (Hb k (f', c') Hk Hk'). simpl in Hb.
      destruct (path_exists fs (path_join ws f')); [discriminate | reflexivity].
    + intros [i [f [Hi [E Hb]]]]. exists i, (f, c). split; [exact Hi|].
      split; [simpl; now rewrite E|].
      intros k [f' c'] Hk Hk'. simpl. now rewrite (Hb k f' c' Hk Hk').
  - rewrite first_some_None_iff. split.
    + intros H f c Hin. specialize (H _ Hin). simpl in H.
      destruct (path_exists fs (path_join ws f)); [discriminate | reflexivity].
    + intros H [f c] Hin. simpl. now rewrite (H f c Hin).
Qed.

(** X4 (hasAnyFile): the check only reads.  When [dir] is a directory it
    answers [true] exactly when some pattern matches the name of some
    regular file anywhere below [dir]; when [dir] is not a directory it
    answers [false] for an empty pattern list and otherwise throws the
    [readdir] error. *)
Theorem hasAnyFile_spec dir patterns s :
  snd (hasAnyFile dir patterns s) = s /\
  (is_dir (st_fs s) dir = true ->
   exists b, fst (hasAnyFile dir patterns s) = Ok b /\
     (b = true <-> exists pattern p c, In pattern patterns /\
        In (p, File c) (descendants (st_fs s) dir) /\
        matchesPattern (last p EmptyString) pattern = true)) /\
  (is_dir (st_fs s) dir = false ->
   fst (hasAnyFile dir patterns s) =
   match patterns with
   | [] => Ok false
   | _ :: _ => Err (JsError "ENOENT: no such file or directory, scandir")
   end).
Proof.
  rewrite hasAnyFile_eq. simpl. split; [reflexivity|]. split.
  - intro E. rewrite E. eexists. split; [reflexivity|].
    rewrite existsb_exists. split.
    + intros [pat [Hp Hx]]. apply existsb_exists in Hx as [[q n] [Hq Hm]].
      destruct n as [c|]; [|discriminate]. exists pat, q, c. auto.
    + intros [pat [q [c [Hp [Hq Hm]]]]]. exists pat. split; [exact Hp|].
      apply existsb_exists. exists (q, File c). auto.
  - intro E. now rewrite E.
Qed.

(** X5 (cleanup): [cleanup(workspace_<n>)] makes one attempt to remove
    [base/workspace_<n>] and changes nothing outside it.  When [fs.rm]
    completes, the entries at and below it are gone; when [fs.rm] fails,
    [cleanup] rejects with its error and the entries [fs.rm] did not reach
    stay as they were.  The attempt is its only effect either way. *)
Theorem cleanup_removes_only_the_workspace base rm n s :
  let id := "workspace_" +++ string_of_nat n in
  let w := base ++ [id] in
  let (r, s') := cleanup base rm id s in
  st_count s' = st_count s /\ st_calls s' = st_calls s /\
  ((rm (st_calls s) w (st_fs s) = None /\ r = Ok tt /\
    st_log s' = st_log s ++ [EvRm w] /\
    forall q, lookup_node (st_fs s') q =
              if is_prefix_path w q then None else lookup_node (st_fs s) q)
   \/
   (exists msg kept, rm (st_calls s) w (st_fs s) = Some (msg, kept) /\
    r = Err (JsError msg) /\ st_log s' = st_log s ++ [EvRmFailed w msg] /\
    forall q, lookup_node (st_fs s') q =
              if is_prefix_path w q && negb (existsb (path_eqb q) kept)
              then None else lookup_node (st_fs s) q)).
Proof.
  intros id w. unfold cleanup, rmTree. fold w.
  assert (Hw : w <> []) by (intro H; apply app_eq_nil in H as [_ H]; discriminate).
  destruct (rm (st_calls s) w (st_fs s)) as [[msg kept]|] eqn:E; cbv beta iota;
    cbn [st_count st_calls st_log st_fs]; (split; [reflexivity|]); (split; [reflexivity|]).
  - right. exists msg, kept. split; [reflexivity|]. split; [reflexivity|].
    split; [reflexivity|]. intro q. apply lookup_node_rm_partial. exact Hw.
  - left. split; [reflexivity|]. split; [reflexivity|]. split; [reflexivity|].
    intro q. apply lookup_node_rm_rf. exact Hw.
Qed.

(** X6 (runCode, createWorkspaceDirectory): every [runCode] call raises
    [workspaceCount] by exactly one, whatever happens (also when creating
    the workspace fails), so the workspace a following call creates has a
    different name from the one this call created. *)
Theorem runCode_next_call_uses_new_workspace base parse oracle rm o s :
  st_count (snd (runCode base parse oracle rm o s)) = S (st_count s) /\
  forall w1 w2,
    fst (createWorkspaceDirectory base s) = Ok w1 ->
    fst (createWorkspaceDirectory base (snd (runCode base parse oracle rm o s))) = Ok w2 ->
    w1 <> w2.
Proof.
  split; [apply runCode_count|]. intros w1 w2 H1 H2 E.
  apply createWorkspaceDirectory_fst_path in H1, H2. rewrite runCode_count in H2.
  subst w1 w2. apply app_inv_head in E. injection E as E.
  apply string_of_nat_inj in E. lia.
Qed.

(** X7 (runCode, createWorkspaceDirectory): when the base directory cannot
    be created (a regular file sits on its path), every [runCode] call
    fails with the [mkdir] error, leaves the disk and the trace unchanged,
    runs no command, and still uses up a workspace number. *)
Theorem runCode_fails_when_base_dir_cannot_be_made base parse oracle rm o s :
  mkdir_p (st_fs s) base = None ->
  runCode base parse oracle rm o s =
  (Err (JsError "EEXIST or ENOTDIR"),
   mkState (st_fs s) (S (st_count s)) (st_calls s) (st_log s)).
Proof.
  intro H. rewrite runCode_unfold. unfold createWorkspaceDirectory. cbv beta zeta.
  unfold mkdir_p in *. rewrite mkdir_p_aux_app, H. reflexivity.
Qed.

(** X8 (executeCommand): a failed command does not reject when the text
    ['exit code 1'] occurs in the command itself or in its stderr, whatever
    its exit code (only a [maxBuffer] overflow still rejects): the promise
    resolves with both output streams. *)
Theorem executeCommand_resolves_on_marker_text oracle cmd s r fs' :
  oracle (st_calls s) cmd (st_fs s) = (r, fs') ->
  ex_end r <> MaxBufferExceeded ->
  includes cmd "exit code 1" = true \/ includes (ex_stderr r) "exit code 1" = true ->
  fst (executeCommand oracle cmd s) = Ok (ex_stdout r, ex_stderr r).
Proof.
  intros O Hend Hinc. unfold executeCommand. rewrite O.
  change (settle cmd r = Ok (ex_stdout r, ex_stderr r)).
  unfold settle, exec_error_message.
  destruct (ex_end r) as [[|k]|sig| |]; try reflexivity; try contradiction;
    cbv beta iota; rewrite (msg_includes _ _ _ Hinc); reflexivity.
Qed.

(** X9 (runCode in the TypeScript source): the TypeScript [runCode] behaves
    exactly as the built [runCode] called with [autoSetup: false]: same
    result, same effects, from every state. *)
Theorem runCode_ts_is_runCode_without_autoSetup base parse oracle rm o s :
  runCode_ts base parse oracle rm o s = runCode base parse oracle rm (without_autoSetup o) s.
Proof. reflexivity. Qed.

Lemma sam0_within {A} (m : M A) : spawns_at_most 0 m -> runs_within m [].
Proof.
  intros H s. destruct (H s) as [l [Hl Hn]]. exists l. split; [exact Hl|].
  destruct (execs l); [constructor | simpl in Hn; lia].
Qed.

Lemma ext_bind_silent {A B} (m : M A) (k : A -> M B) (Q : list string -> Prop) :
  runs_within m [] -> Q [] ->
  (forall a s, exists l, st_log (snd (k a s)) = st_log s ++ l /\ Q (execs l)) ->
  forall s, exists l, st_log (snd (bind m k s)) = st_log s ++ l /\ Q (execs l).
Proof.
  intros Hm HQ Hk s. unfold bind. destruct (within_nil m Hm s) as [l1 [Hl1 Hx1]].
  destruct (m s) as [[a|e] s1]; simpl in Hl1 |- *.
  - destruct (Hk a s1) as [l2 [Hl2 HQ2]]. exists (l1 ++ l2).
    rewrite Hl2, Hl1, <- app_assoc, execs_app, Hx1. split; [reflexivity | exact HQ2].
  - exists l1. rewrite Hx1. split; [exact Hl1 | exact HQ].
Qed.

Lemma ext_finally_silent {A} (m : M A) (f : M unit) (Q : list string -> Prop) :
  (forall s, exists l, st_log (snd (m s)) = st_log s ++ l /\ Q (execs l)) ->
  runs_within f [] ->
  forall s, exists l, st_log (snd (finally_ m f s)) = st_log s ++ l /\ Q (execs l).
Proof.
  intros Hm Hf s. unfold finally_. destruct (Hm s) as [l1 [Hl1 HQ]].
  destruct (m s) as [r s1]. simpl in Hl1. destruct (within_nil f Hf s1) as [l2 [Hl2 Hx2]].
  destruct (f s1) as [[u|e] s2]; simpl in Hl2 |- *;
    (exists (l1 ++ l2); rewrite Hl2, Hl1, <- app_assoc, execs_app, Hx2, app_nil_r;
     split; [reflexivity | exact HQ]).
Qed.

Lemma run_entry_cmds oracle ws f s :
  exists l, st_log (snd (run_entry oracle ws f s)) = st_log s ++ l /\
   (execs l = [] \/
    exists cmd, getRunCommand (to_lower (extname f)) f = Some cmd /\
      sublist (execs l)
        (if existsb (String.eqb (to_lower (extname f))) node_extensions
         then [in_workspace ws "npm install"; cmd] else [cmd])).
Proof.
  unfold run_entry. cbv zeta. destruct (getRunCommand _ f) as [cmd|] eqn:E.
  - assert (H : runs_within
              ((if existsb (String.eqb (to_lower (extname f))) node_extensions
                then setupNodeProject oracle ws (to_lower (extname f)) else ret tt) ;;;
               out <- executeCommand oracle cmd ;;
               ret (mkRunResult (fst out) (snd out) (classify (snd out)) f))
              (if existsb (String.eqb (to_lower (extname f))) node_extensions
               then [in_workspace ws "npm install"; cmd] else [cmd])).
    { destruct (existsb _ _).
      - change [in_workspace ws "npm install"; cmd]
          with ([in_workspace ws "npm install"] ++ ([cmd] ++ [])).
        apply within_bind; [|intro; apply within_bind; [apply within_executeCommand|]];
          [|intro; apply within_ret].
        unfold setupNodeProject.
        change [in_workspace ws "npm install"]
          with ([] ++ ([] ++ ([in_workspace ws "npm install"] ++ []))).
        apply within_bind; [apply within_writeFile | intro].
        apply within_bind; [apply within_writeFile | intro].
        apply within_bind; [apply within_executeCommand | intro; apply within_ret].
      - change [cmd] with ([] ++ ([cmd] ++ [])).
        apply within_bind; [apply within_ret | intro].
        apply within_bind; [apply within_executeCommand | intro; apply within_ret]. }
    destruct (H s) as [l [Hl Hs]]. exists l. split; [exact Hl|]. right. exists cmd. auto.
  - exists []. rewrite app_nil_r. auto.
Qed.

(** X10 (runCode): with [autoSetup: false] the commands a call spawns
    are, in order, among [npm install] in the workspace, only when the
    entry file is .jsx, .tsx or .ts, and then the run command of the entry
    file: at most two commands, and at most the run command for any other
    entry. *)
Theorem runCode_without_autoSetup_spawns_at_most_two base parse oracle rm o s :
  o_autoSetup o = Some false ->
  let ws := base ++ ["workspace_" +++ string_of_nat (S (st_count s))] in
  exists l, st_log (snd (runCode base parse oracle rm o s)) = st_log s ++ l /\
   (execs l = [] \/
    exists fileToRun cmd,
      getRunCommand (to_lower (extname fileToRun)) fileToRun = Some cmd /\
      sublist (execs l)
        (if existsb (String.eqb (to_lower (extname fileToRun))) node_extensions
         then [in_workspace ws "npm install"; cmd] else [cmd])).
Proof.
  intros H ws. assert (Ha : autoSetup_enabled o = false)
    by (unfold autoSetup_enabled; now rewrite H).
  rewrite runCode_unfold. unfold createWorkspaceDirectory at 1. cbv beta zeta. fold ws.
  destruct (mkdir_p (st_fs s) ws) as [fs1|] eqn:Hm;
    [|exists []; rewrite app_nil_r; split; [reflexivity | left; reflexivity]].
  pose (Q := fun x : list string => x = [] \/
    exists fileToRun cmd,
      getRunCommand (to_lower (extname fileToRun)) fileToRun = Some cmd /\
      sublist x
        (if existsb (String.eqb (to_lower (extname fileToRun))) node_extensions
         then [in_workspace ws "npm install"; cmd] else [cmd])).
  assert (HQ : Q []) by (left; reflexivity).
  assert (Hb : forall st, exists l,
             st_log (snd (runCode_body parse oracle ws o st)) = st_log st ++ l /\ Q (execs l)).
  { unfold runCode_body. rewrite Ha.
    apply ext_bind_silent; [apply write_dependencies_within | exact HQ | intros u].
    apply ext_bind_silent; [apply sam0_within, sam_write_main | exact HQ | intros mp].
    apply ext_bind_silent; [apply within_ret | exact HQ | intros u'].
    apply ext_bind_silent; [apply sam0_within, sam_resolve_entry | exact HQ | intros f st].
    destruct (run_entry_cmds oracle ws f st) as [l [Hl Hc]]. exists l. split; [exact Hl|].
    destruct Hc as [Hc | [cmd Hc]]; [left; exact Hc | right; exists f, cmd; exact Hc]. }
  assert (Hc : runs_within (catch_ (cleanup base rm (last ws EmptyString)) (fun _ => ret tt)) []).
  { change (@nil string) with (@nil string ++ []).
    apply within_catch; [apply sam0_within, sam_cleanup | intro; apply within_ret]. }
  destruct (ext_finally_silent _ _ Q Hb Hc
              (mkState fs1 (S (st_count s)) (st_calls s) (st_log s ++ [EvMkdir ws])))
    as [l [Hl HQl]].
  exists (EvMkdir ws :: l). split.
  - rewrite Hl. simpl. now rewrite <- app_assoc.
  - exact HQl.
Qed.

(** X11 (detectEntryPoint): whichever tier answers, the detected entry
    exists on disk (as a file or a directory). *)
Theorem detectEntryPoint_entry_exists parse fs ws p :
  detectEntryPoint parse fs ws = Some p -> path_exists fs p = true.
Proof.
  unfold detectEntryPoint.
  destruct (tier_framework fs ws) as [p1|] eqn:T1.
  { intro H. injection H as <-. unfold tier_framework in T1.
    apply first_some_In in T1 as [cfg [_ Hc]].
    destruct (path_exists fs (path_join ws (fst cfg))); [|discriminate].
    destruct (path_exists fs (path_join ws (snd cfg))) eqn:E; [|discriminate].
    injection Hc as <-. exact E. }
  destruct (tier_manifest parse fs ws) as [p2|] eqn:T2.
  { intro H. injection H as <-. unfold tier_manifest in T2.
    destruct (negb _); [discriminate|].
    destruct (read_json parse fs _); [|discriminate].
    destruct (manifest_candidates _); [|discriminate].
    eapply manifest_scan_exists; eauto. }
  destruct (tier_conventional fs ws) as [p3|] eqn:T3.
  { intro H. injection H as <-. unfold tier_conventional in T3.
    apply first_some_In in T3 as [f [_ Hc]].
    destruct (path_exists fs (path_join ws f)) eqn:E; [|discriminate].
    injection Hc as <-. exact E. }
  unfold tier_heuristic. destruct (negb (is_dir fs ws)); [discriminate|].
  intro H. apply first_some_In in H as [[q n] [Hin Hc]]. cbv beta iota delta [fst snd] in Hc.
  destruct (starts_with (rel_name ws q) "."); [discriminate|].
  destruct n as [c|]; [|discriminate].
  destruct (existsb (includes c) entryMarkers); [|discriminate].
  injection Hc as <-. unfold descendants in Hin. apply filter_In in Hin as [Hin Hq].
  simpl in Hq. apply andb_true_iff in Hq as [Hpre Hne].
  unfold path_exists, lookup_node. destruct q as [|a q].
  - destruct ws; [discriminate | discriminate].
  - destruct (lookup_entries_In _ _ _ Hin) as [n' ->]. reflexivity.
Qed.

(** X12 (detectEntryPoint, runCode): two entries of the framework table
    have no extension, [pages/index] (next.config.js) and [src/main]
    (vite.config.js).  With next.config.js and pages/index present,
    [detectEntryPoint] answers pages/index, and running either entry
    raises ['Unsupported file type: '] with no command spawned and no
    change to the state. *)
Theorem extensionless_framework_entries_unsupported parse oracle fs ws s :
  (path_exists fs (path_join ws "next.config.js") = true ->
   path_exists fs (path_join ws "pages/index") = true ->
   detectEntryPoint parse fs ws = Some (path_join ws "pages/index")) /\
  (forall e, In e ["pages/index"; "src/main"] ->
   run_entry oracle ws (path_str (path_join ws e)) s =
   (Err (JsError "Unsupported file type: "), s)).
Proof.
  split.
  - intros H1 H2. unfold detectEntryPoint, tier_framework.
    unfold frameworkConfigs at 1. cbn [first_some fst snd]. rewrite H1, H2. reflexivity.
  - intros e He. assert (Hx : extname (path_str (path_join ws e)) = EmptyString).
    { destruct He as [<-|[<-|[]]].
      - replace (path_join ws "pages/index") with ((ws ++ ["pages"]) ++ ["index"])
          by reflexivity.
        rewrite extname_path_str_snoc by reflexivity. reflexivity.
      - replace (path_join ws "src/main") with ((ws ++ ["src"]) ++ ["main"])
          by reflexivity.
        rewrite extname_path_str_snoc by reflexivity. reflexivity. }
    unfold run_entry. rewrite Hx. reflexivity.
Qed.

(** X13 (runCode): no write creates directories.  For a request with
    non-empty code and filename, when the directory part of
    [path.join(ws, filename)] is not the workspace [ws] or one of its
    ancestors (which creating [ws] makes) and is not already a directory,
    the call fails before any command runs: dependency files, written
    first, cannot create it either. *)
Theorem runCode_does_not_create_missing_directories base parse oracle rm o s filename :
  o_filename o = Some filename -> truthy_str (o_code o) = true ->
  truthy_str (o_filename o) = true ->
  let ws := base ++ ["workspace_" +++ string_of_nat (S (st_count s))] in
  is_prefix_path (removelast (path_join ws filename)) ws = false ->
  is_dir (st_fs s) (removelast (path_join ws filename)) = false ->
  (exists e, fst (runCode base parse oracle rm o s) = Err e) /\
  st_calls (snd (runCode base parse oracle rm o s)) = st_calls s.
Proof.
  intros Hf Hc Hft ws Hp Hdir.
  set (mp := path_join ws filename) in *.
  assert (Hmp : mp <> []) by (intro E; rewrite E in Hp; discriminate).
  rewrite runCode_unfold. unfold createWorkspaceDirectory. cbv beta zeta. fold ws.
  destruct (mkdir_p (st_fs s) ws) as [fs1|] eqn:Hm;
    [|split; [eexists; reflexivity | reflexivity]].
  set (st := mkState fs1 (S (st_count s)) (st_calls s) (st_log s ++ [EvMkdir ws])).
  assert (Hlk : is_dir fs1 (removelast mp) = false).
  { unfold is_dir in *. unfold mkdir_p in Hm.
    rewrite (mkdir_p_aux_lookup_other _ _ _ _ _ Hm); [exact Hdir | exact Hp]. }
  assert (Hbody : exists e st', runCode_body parse oracle ws o st = (Err e, st') /\
                                st_calls st' = st_calls s).
  { unfold runCode_body.
    pose proof (write_dependencies_not_dir ws (o_dependencies o) (removelast mp) st Hlk)
      as [H1 C1].
    destruct (write_dependencies ws (o_dependencies o) st) as [[u|e] st1] eqn:W;
      simpl in H1, C1.
    - rewrite (bind_Ok _ _ _ _ _ W). cbv beta.
      exists (JsError "ENOENT or EISDIR"), st1. split; [|exact C1].
      apply bind_Err. unfold write_main. rewrite Hc, Hft. simpl andb. cbv iota zeta.
      rewrite Hf. apply bind_Err. unfold writeFile. fold mp.
      rewrite write_file_no_parent; [reflexivity | exact Hmp | exact H1].
    - rewrite (bind_Err _ _ _ _ _ W). exists e, st1. split; [reflexivity | exact C1]. }
  destruct Hbody as [e [st' [Hb Cb]]].
  unfold finally_. rewrite Hb. unfold catch_, cleanup, rmTree.
  destruct (rm _ _ _) as [[m kept]|]; simpl; split; [eexists; reflexivity | exact Cb
                                                   | eexists; reflexivity | exact Cb].
Qed.

(** X14 (matchesPattern): a pattern [*.ext] matches every name ending in
    [.ext], the bare name [.ext] included; any other pattern matches only
    the identical name. *)
Theorem matchesPattern_spec :
  (forall name ext, matchesPattern (name +++ "." +++ ext) ("*." +++ ext) = true) /\
  (forall filename pattern, starts_with pattern "*." = false ->
   (matchesPattern filename pattern = true <-> filename = pattern)).
Proof.
  split.
  - intros name ext. unfold matchesPattern.
    replace (starts_with ("*." +++ ext) "*.") with true by (destruct ext; reflexivity).
    replace (String.length ("*." +++ ext) - 1) with (String.length ("." +++ ext))
      by (simpl; lia).
    replace ("*." +++ ext) with ("*" +++ ("." +++ ext)) by reflexivity.
    rewrite (substring_app_r "*"). rewrite substring_full. apply ends_with_app.
  - intros filename pattern H. unfold matchesPattern. rewrite H. apply String.eqb_eq.
Qed.

(** X15 (executeCommand): one call spawns exactly one process: the
    process counter goes up by one, the trace gains that one command, the
    workspace counter is kept.  A zero exit resolves with both streams and
    a [maxBuffer] overflow always rejects. *)
Theorem executeCommand_one_process oracle cmd s r fs' :
  oracle (st_calls s) cmd (st_fs s) = (r, fs') ->
  snd (executeCommand oracle cmd s) =
    mkState fs' (st_count s) (S (st_calls s)) (st_log s ++ [EvExec cmd (st_fs s) r]) /\
  (ex_end r = Exited 0 -> fst (executeCommand oracle cmd s) = Ok (ex_stdout r, ex_stderr r)) /\
  (ex_end r = MaxBufferExceeded ->
   fst (executeCommand oracle cmd s) = Err (JsError "stdout maxBuffer length exceeded")).
Proof.
  intro O. unfold executeCommand. rewrite O. split; [reflexivity|].
  split; intro E.
  - change (settle cmd r = Ok (ex_stdout r, ex_stderr r)).
    unfold settle, exec_error_message. rewrite E. reflexivity.
  - change (settle cmd r = Err (JsError "stdout maxBuffer length exceeded")).
    unfold settle, exec_error_message. rewrite E. reflexivity.
Qed.

(** X16 (createWorkspaceDirectory, initializeWorkspaceDirectory): creating
    the workspace keeps every existing entry and, when it succeeds, leaves
    the workspace a directory; when it fails the disk and the trace are
    unchanged.  The constructor's [initializeWorkspaceDirectory] never
    fails: afterwards the base directory exists as a directory, or nothing
    changed. *)
Theorem workspace_directories_are_made base s :
  (forall w s', createWorkspaceDirectory base s = (Ok w, s') ->
     is_dir (st_fs s') w = true /\
     forall q n, lookup_node (st_fs s) q = Some n -> lookup_node (st_fs s') q = Some n) /\
  (forall e s', createWorkspaceDirectory base s = (Err e, s') ->
     st_fs s' = st_fs s /\ st_log s' = st_log s /\ st_calls s' = st_calls s) /\
  fst (initializeWorkspaceDirectory base s) = Ok tt /\
  (is_dir (st_fs (snd (initializeWorkspaceDirectory base s))) base = true \/
   snd (initializeWorkspaceDirectory base s) = s).
Proof.
  unfold createWorkspaceDirectory, initializeWorkspaceDirectory. cbv beta zeta.
  split; [|split]; [intros w s' H | intros e s' H |].
  - destruct (mkdir_p (st_fs s) _) as [fs'|] eqn:M; [|discriminate].
    injection H as <- <-. simpl. split; [exact (mkdir_p_dir _ _ _ M)|].
    intros q n Hq. exact (mkdir_p_aux_keeps _ _ _ _ _ _ M Hq).
  - destruct (mkdir_p (st_fs s) _); [discriminate|]. injection H as _ <-. auto.
  - destruct (mkdir_p (st_fs s) base) as [fs'|] eqn:M; simpl; split; auto.
    left. exact (mkdir_p_dir _ _ _ M).
Qed.

(** ** Witnesses of the extra properties *)

Lemma getRunCommand_quotes_file_path_witness :
  getRunCommand ".py" "/w/main.py" = Some ("python " +++ quoted "/w/main.py") /\
  includes ("python " +++ quoted "/w/main.py") (quoted "/w/main.py") = true.
Proof.
  assert (H : getRunCommand ".py" "/w/main.py" = Some ("python " +++ quoted "/w/main.py"))
    by reflexivity.
  split; [exact H|]. exact (getRunCommand_quotes_file_path _ _ _ H).
Defined.

Lemma getStartCommand_package_scripts_witness :
  read_json start_server_json go_and_node (path_join ["w"] "package.json") =
    start_server_json "{}" /\
  getStartCommand start_server_json go_and_node ["w"] = Some "npm start".
Proof.
  assert (R : read_json start_server_json go_and_node (path_join ["w"] "package.json") =
              Some (JObj [("scripts", JObj [("start", JStr ("node " +++ sq +++ "server.js" +++ sq))])]))
    by reflexivity.
  assert (Sc : scripts_of (JObj [("scripts", JObj [("start", JStr ("node " +++ sq +++ "server.js" +++ sq))])]) =
               Some (JObj [("start", JStr ("node " +++ sq +++ "server.js" +++ sq))]))
    by reflexivity.
  split; [reflexivity|].
  exact (proj2 (proj1 (getStartCommand_package_scripts start_server_json go_and_node ["w"])
                  _ _ R Sc) eq_refl eq_refl).
Defined.

Lemma getStartCommand_start_patterns_witness :
  package_start_command no_json manage_dir ["w"] = None /\
  getStartCommand no_json manage_dir ["w"] = Some "python manage.py runserver".
Proof.
  assert (Hn : package_start_command no_json manage_dir ["w"] = None) by reflexivity.
  split; [exact Hn|].
  apply (proj1 (getStartCommand_start_patterns no_json manage_dir ["w"] Hn)).
  exists 0, "manage.py". split; [reflexivity|]. split; [reflexivity|].
  intros k f' c' Hk. lia.
Defined.

Lemma hasAnyFile_spec_witness :
  is_dir (st_fs demo_state) ["tmp"] = true /\
  fst (hasAnyFile ["tmp"] ["*.py"] demo_state) = Ok false /\
  is_dir (st_fs demo_state) ["srv"] = false /\
  fst (hasAnyFile ["srv"] [] demo_state) = Ok false.
Proof.
  assert (H1 : is_dir (st_fs demo_state) ["tmp"] = true) by reflexivity.
  assert (H2 : is_dir (st_fs demo_state) ["srv"] = false) by reflexivity.
  split; [exact H1|]. split.
  - destruct (proj1 (proj2 (hasAnyFile_spec ["tmp"] ["*.py"] demo_state)) H1)
      as [b [Hb Hiff]].
    rewrite Hb. destruct b; [|reflexivity].
    destruct (proj1 Hiff eq_refl) as [pat [p [c [_ [Hin _]]]]].
    vm_compute in Hin. destruct Hin as [Hq|[]]. discriminate Hq.
  - split; [exact H2|].
    exact (proj2 (proj2 (hasAnyFile_spec ["srv"] [] demo_state)) H2).
Defined.

Lemma runCode_next_call_uses_new_workspace_witness :
  fst (createWorkspaceDirectory demo_base demo_state) =
    Ok ["tmp"; "shadow"; "workspace_1"] /\
  fst (createWorkspaceDirectory demo_base
         (snd (runCode demo_base no_json (oracle_ending (Exited 0) "1" "") rm_ok
                 (demo_request "print(1)" "main.py") demo_state))) =
    Ok ["tmp"; "shadow"; "workspace_2"] /\
  ["tmp"; "shadow"; "workspace_1"] <> ["tmp"; "shadow"; "workspace_2"].
Proof.
  assert (H1 : fst (createWorkspaceDirectory demo_base demo_state) =
               Ok ["tmp"; "shadow"; "workspace_1"]) by (vm_compute; reflexivity).
  assert (H2 : fst (createWorkspaceDirectory demo_base
                 (snd (runCode demo_base no_json (oracle_ending (Exited 0) "1" "") rm_ok
                         (demo_request "print(1)" "main.py") demo_state))) =
               Ok ["tmp"; "shadow"; "workspace_2"]) by (vm_compute; reflexivity).
  split; [exact H1|]. split; [exact H2|].
  exact (proj2 (runCode_next_call_uses_new_workspace demo_base no_json
                  (oracle_ending (Exited 0) "1" "") rm_ok (demo_request "print(1)" "main.py")
                  demo_state) _ _ H1 H2).
Defined.

Lemma runCode_fails_when_base_dir_cannot_be_made_witness :
  mkdir_p (st_fs blocked_state) demo_base = None /\
  runCode demo_base no_json (oracle_ending (Exited 0) "" "") rm_ok
          (demo_request "print(1)" "main.py") blocked_state =
  (Err (JsError "EEXIST or ENOTDIR"), mkState [(["tmp"], File "x")] 1 0 []).
Proof.
  assert (H : mkdir_p (st_fs blocked_state) demo_base = None) by reflexivity.
  split; [exact H|].
  exact (runCode_fails_when_base_dir_cannot_be_made demo_base no_json
           (oracle_ending (Exited 0) "" "") rm_ok (demo_request "print(1)" "main.py")
           blocked_state H).
Defined.

Lemma executeCommand_resolves_on_marker_text_witness :
  oracle_ending (Exited 2) "done" "" 0 "echo exit code 1; exit 2" (st_fs demo_state) =
    (mkExecResult (Exited 2) "done" "", st_fs demo_state) /\
  fst (executeCommand (oracle_ending (Exited 2) "done" "") "echo exit code 1; exit 2"
         demo_state) = Ok ("done", "").
Proof.
  assert (O : oracle_ending (Exited 2) "done" "" (st_calls demo_state)
                "echo exit code 1; exit 2" (st_fs demo_state) =
              (mkExecResult (Exited 2) "done" "", st_fs demo_state)) by reflexivity.
  split; [exact O|].
  exact (executeCommand_resolves_on_marker_text _ _ _ _ _ O
           ltac:(discriminate) (or_introl (eq_refl true))).
Defined.

Lemma runCode_without_autoSetup_spawns_at_most_two_witness :
  let o := without_autoSetup (demo_request "const x: number = 1" "main.ts") in
  o_autoSetup o = Some false /\
  let ws := demo_base ++ ["workspace_" +++ string_of_nat (S (st_count demo_state))] in
  exists l, st_log (snd (runCode demo_base no_json (oracle_ending (Exited 0) "" "") rm_ok
                                 o demo_state)) = st_log demo_state ++ l /\
   (execs l = [] \/
    exists fileToRun cmd,
      getRunCommand (to_lower (extname fileToRun)) fileToRun = Some cmd /\
      sublist (execs l)
        (if existsb (String.eqb (to_lower (extname fileToRun))) node_extensions
         then [in_workspace ws "npm install"; cmd] else [cmd])).
Proof.
  intro o. assert (H : o_autoSetup o = Some false) by reflexivity.
  split; [exact H|].
  exact (runCode_without_autoSetup_spawns_at_most_two demo_base no_json
           (oracle_ending (Exited 0) "" "") rm_ok o demo_state H).
Defined.

Lemma detectEntryPoint_entry_exists_witness :
  detectEntryPoint no_json main_py_only ["w"] = Some ["w"; "main.py"] /\
  path_exists main_py_only ["w"; "main.py"] = true.
Proof.
  assert (H : detectEntryPoint no_json main_py_only ["w"] = Some ["w"; "main.py"])
    by (vm_compute; reflexivity).
  split; [exact H|]. exact (detectEntryPoint_entry_exists _ _ _ _ H).
Defined.

Lemma extensionless_framework_entries_unsupported_witness :
  path_exists next_app (path_join ["w"] "next.config.js") = true /\
  path_exists next_app (path_join ["w"] "pages/index") = true /\
  detectEntryPoint no_json next_app ["w"] = Some ["w"; "pages"; "index"].
Proof.
  assert (H1 : path_exists next_app (path_join ["w"] "next.config.js") = true)
    by reflexivity.
  assert (H2 : path_exists next_app (path_join ["w"] "pages/index") = true)
    by reflexivity.
  split; [exact H1|]. split; [exact H2|].
  exact (proj1 (extensionless_framework_entries_unsupported no_json
                  (oracle_ending (Exited 0) "" "") next_app ["w"] demo_state) H1 H2).
Defined.

Lemma runCode_does_not_create_missing_directories_witness :
  let ws := demo_base ++ ["workspace_" +++ string_of_nat (S (st_count demo_state))] in
  is_prefix_path (removelast (path_join ws "./src/app.py")) ws = false /\
  is_dir (st_fs demo_state) (removelast (path_join ws "./src/app.py")) = false /\
  (exists e, fst (runCode demo_base no_json (oracle_ending (Exited 0) "" "") rm_ok
                   (demo_request "print(1)" "./src/app.py") demo_state) = Err e) /\
  st_calls (snd (runCode demo_base no_json (oracle_ending (Exited 0) "" "") rm_ok
                   (demo_request "print(1)" "./src/app.py") demo_state)) = 0.
Proof.
  intro ws.
  assert (Hp : is_prefix_path (removelast (path_join ws "./src/app.py")) ws = false)
    by (vm_compute; reflexivity).
  assert (Hd : is_dir (st_fs demo_state) (removelast (path_join ws "./src/app.py")) = false)
    by (vm_compute; reflexivity).
  split; [exact Hp|]. split; [exact Hd|].
  exact (runCode_does_not_create_missing_directories demo_base no_json
           (oracle_ending (Exited 0) "" "") rm_ok (demo_request "print(1)" "./src/app.py")
           demo_state "./src/app.py" eq_refl eq_refl eq_refl Hp Hd).
Defined.

Lemma matchesPattern_spec_witness :
  starts_with "manage.py" "*." = false /\ matchesPattern "manage.py" "manage.py" = true.
Proof.
  assert (H : starts_with "manage.py" "*." = false) by reflexivity.
  split; [exact H|]. apply (proj2 (proj2 matchesPattern_spec "manage.py" "manage.py" H)).
  reflexivity.
Defined.

Lemma executeCommand_one_process_witness :
  ex_end (mkExecResult (Exited 0) "ok" "") = Exited 0 /\
  fst (executeCommand (oracle_ending (Exited 0) "ok" "") "true" demo_state) = Ok ("ok", "").
Proof.
  assert (O : oracle_ending (Exited 0) "ok" "" (st_calls demo_state) "true" (st_fs demo_state) =
              (mkExecResult (Exited 0) "ok" "", st_fs demo_state)) by reflexivity.
  split; [reflexivity|].
  exact (proj1 (proj2 (executeCommand_one_process _ _ _ _ _ O)) eq_refl).
Defined.

Lemma workspace_directories_are_made_witness :
  is_dir (st_fs (snd (createWorkspaceDirectory demo_base demo_state)))
    ["tmp"; "shadow"; "workspace_1"] = true /\
  fst (initializeWorkspaceDirectory demo_base blocked_state) = Ok tt.
Proof.
  split.
  - apply (proj1 (proj1 (workspace_directories_are_made demo_base demo_state)
                    ["tmp"; "shadow"; "workspace_1"]
                    (snd (createWorkspaceDirectory demo_base demo_state))
                    ltac:(vm_compute; reflexivity))).
  - exact (proj1 (proj2 (proj2 (workspace_directories_are_made demo_base blocked_state)))).
Defined.
